(** * IMDB lesson notebooks: data preparation and pipeline shapes

    The notebooks of this repository prepare the IMDB review data for
    Keras models.  The one function the repository defines itself is
    [vectorize_sequences] (in [lecture 4/ClassificationNN.ipynb] and in
    [Lecture6/OverUnderFitting.ipynb]); everything else is a call into
    NumPy, Keras or scikit-learn.  This file embeds [vectorize_sequences]
    together with the NumPy primitives it is written with, and states the
    shape properties of the pipeline around it. *)

From Stdlib Require Import ZArith PrimFloat.
From stdpp Require Import base numbers option list sets strings pretty gmap.

Set Default Proof Using "Type".

(** ** Python results

    The cells raise exceptions; a computation is a value or a raised
    exception. *)

Module Python.

Inductive exception : Type :=
  | IndexError
  | ValueError.

Inductive result (A : Type) : Type :=
  | Ok (a : A)
  | Raise (e : exception).

Global Arguments Ok {A} a.
Global Arguments Raise {A} e.

Global Instance result_ret : MRet result := λ A a, Ok a.

Global Instance result_bind : MBind result := λ A B f r,
  match r with
  | Ok a => f a
  | Raise e => Raise e
  end.

Global Instance result_fmap : FMap result := λ A B f r,
  match r with
  | Ok a => Ok (f a)
  | Raise e => Raise e
  end.

Definition returns {A} (r : result A) : Prop := ∃ a, r = Ok a.

End Python.

Import Python.

(** ** The NumPy operations used by the notebooks

    [ndarray] is a two-dimensional float64 array: its [shape] and its
    rows.  Only the operations of [vectorize_sequences] are embedded:
    [np.zeros], and the assignment [a[i, idx] = v] with an integer [i] and
    a list [idx] of Python integers. *)

Module np.

Record ndarray : Type := mk_ndarray {
  shape : nat * nat;
  rows : list (list float)
}.

(** [np.zeros((n, d))] *)
Definition zeros (sh : nat * nat) : ndarray :=
  mk_ndarray sh (replicate sh.1 (replicate sh.2 0%float)).

(** The integers NumPy holds in an index array: 64-bit signed.  The
    embedding of the index assignment is that of lists of such integers;
    a list with a larger integer is first turned by NumPy into an array
    of another type (unsigned, float or object), which is not embedded,
    and the properties that depend on it are stated for integers that
    fit. *)
Definition fits_intp (t : Z) : Prop := (- 2 ^ 63 ≤ t < 2 ^ 63)%Z.

Global Instance fits_intp_dec (t : Z) : Decision (fits_intp t).
Proof. unfold fits_intp. apply _. Defined.

(** NumPy checks every integer of an index array, a 64-bit signed value,
    against the extent [d] of the axis: an index below [-d] or not below
    [d] raises [IndexError], and a negative index counts from the end.
    On an integer that does not fit, the definition keeps the same
    comparison; NumPy never checks such an index. *)
Definition check_and_adjust_index (d : nat) (t : Z) : result nat :=
  if decide (t < - Z.of_nat d ∨ Z.of_nat d ≤ t)%Z then Raise IndexError
  else if decide (t < 0)%Z then Ok (Z.to_nat (t + Z.of_nat d))
  else Ok (Z.to_nat t).

(** The writes of [row[idx] = v], once the indices are checked. *)
Definition put (v : float) (row : list float) (idx : list nat) : list float :=
  foldl (λ r j, <[j:=v]> r) row idx.

(** [a[i, idx] = v]: all the indices are checked before anything is
    written. *)
Definition setitem (a : ndarray) (i : nat) (idx : list Z) (v : float)
    : result ndarray :=
  match rows a !! i with
  | None => Raise IndexError
  | Some row =>
      js ← mapM (check_and_adjust_index (shape a).2) idx;
      Ok (mk_ndarray (shape a) (<[i := put v row js]> (rows a)))
  end.

(** [a[i, j]] for in-range natural indices. *)
Definition getitem (a : ndarray) (i j : nat) : option float :=
  rows a !! i ≫= (.!! j).

(** [np.vstack((a, b))]: the rows of [a] above the rows of [b]; the
    arrays must agree on the second axis. *)
Definition vstack (a b : ndarray) : result ndarray :=
  if decide ((shape a).2 = (shape b).2)
  then Ok (mk_ndarray ((shape a).1 + (shape b).1, (shape a).2) (rows a ++ rows b))
  else Raise ValueError.

(** An array whose rows agree with its [shape]. *)
Definition wf (a : ndarray) : Prop :=
  length (rows a) = (shape a).1 ∧ Forall (λ r, length r = (shape a).2) (rows a).

End np.

(** ** [vectorize_sequences]

<<
def vectorize_sequences(sequences, dimension=10000):
    results = np.zeros((len(sequences), dimension))
    for i, sequence in enumerate(sequences):
        results[i, sequence] = 1.
    return results
>>

    A review is a Python list of integers.  The loop is a recursion on the
    rest of [enumerate(sequences)], threading [results].  (The executed
    copy of the notebook also prints [results.shape]; the printing is
    left out.) *)

Definition dimension_default : nat := Z.to_nat 10000.

Fixpoint vectorize_loop (i : nat) (sequences : list (list Z))
    (results : np.ndarray) : result np.ndarray :=
  match sequences with
  | [] => Ok results
  | sequence :: rest =>
      results' ← np.setitem results i sequence 1%float;
      vectorize_loop (S i) rest results'
  end.

Definition vectorize_sequences (sequences : list (list Z)) (dimension : nat)
    : result np.ndarray :=
  vectorize_loop 0 sequences (np.zeros (length sequences, dimension)).

(** The reviews of the dataset hold word ranks, natural numbers; as
    Python values they are lists of integers. *)
Definition integers (reviews : list (list N)) : list (list Z) :=
  (λ review : list N, Z.of_N <$> review) <$> reviews.

(** The body of the loop on a fresh row: what the call writes for one
    review on its own. *)
Definition vectorize_row (dimension : nat) (sequence : list Z)
    : result (list float) :=
  js ← mapM (np.check_and_adjust_index dimension) sequence;
  Ok (np.put 1%float (replicate dimension 0%float) js).

(** ** The Keras calls of the notebooks

    The notebooks call [pad_sequences], [Embedding] and [model.fit]; the
    functions themselves are Keras's and are in no notebook. *)

Module keras.

(** *** [pad_sequences] *)

(** Modelled from the spec: [keras.preprocessing.sequence.pad_sequences],
    which the notebooks call as [pad_sequences(x, maxlen=maxlen)] and do
    not define.  "Padded/truncated index sequence: fixed-length ordered
    sequence of integers (pad with a sentinel, truncate to a maximum
    length)", "left-padded (or truncated from the start) with the sentinel
    value".  Truncating drops tokens from the start for as long as the
    review is longer than [maxlen]. *)
Fixpoint truncate_pre (maxlen : nat) (review : list Z) : list Z :=
  match review with
  | [] => []
  | _ :: rest =>
      if decide (length review ≤ maxlen) then review
      else truncate_pre maxlen rest
  end.

(** Modelled from the spec: the padding half of [pad_sequences], see
    [truncate_pre].  Padding puts the sentinel [value] in front, once for
    each missing position. *)
Fixpoint pad_pre (missing : nat) (value : Z) (review : list Z) : list Z :=
  match missing with
  | 0 => review
  | S missing => value :: pad_pre missing value review
  end.

(** Modelled from the spec: one row of [pad_sequences], see
    [truncate_pre]. *)
Definition pad_sequence (maxlen : nat) (value : Z) (review : list Z) : list Z :=
  let kept := truncate_pre maxlen review in
  pad_pre (maxlen - length kept) value kept.

(** Modelled from the spec: [pad_sequences] on a batch, see
    [truncate_pre]; one row for each review. *)
Definition pad_sequences (sequences : list (list Z)) (maxlen : nat) (value : Z)
    : list (list Z) :=
  pad_sequence maxlen value <$> sequences.

(** *** [Embedding] *)

(** Modelled from the spec: the [Embedding] layer of Keras, which the
    notebooks instantiate ([Embedding(10000, 32)]; the exercise asks for
    input dimension 10000 and output dimension 8) and do not define.
    "Embedding lookup: table mapping each integer token index to a
    learned dense vector."  The table has [input_dim] rows of
    [output_dim] numbers. *)
Record Embedding : Type := mk_Embedding {
  input_dim : nat;
  output_dim : nat;
  embeddings : list (list float)
}.

(** Modelled from the spec: a built [Embedding] layer, see [Embedding]:
    its table has the declared extent. *)
Definition built (layer : Embedding) : Prop :=
  length (embeddings layer) = input_dim layer
  ∧ Forall (λ vector, length vector = output_dim layer) (embeddings layer).

(** Modelled from the spec: the lookup of one token index, see
    [Embedding]; an index outside the table has no vector. *)
Definition embedding_lookup (layer : Embedding) (t : Z) : option (list float) :=
  if decide (0 ≤ t)%Z then embeddings layer !! Z.to_nat t else None.

(** Modelled from the spec: the layer applied to a batch of index
    sequences, see [Embedding]: every index is looked up. *)
Definition embedding_call (layer : Embedding) (inputs : list (list Z))
    : option (list (list (list float))) :=
  mapM (mapM (embedding_lookup layer)) inputs.

(** The shape of a two-axis tensor held as a list of rows. *)
Definition has_shape2 {A} (x : list (list A)) (sh : nat * nat) : Prop :=
  length x = sh.1 ∧ Forall (λ row, length row = sh.2) x.

(** The shape of a three-axis tensor. *)
Definition has_shape3 {A} (x : list (list (list A))) (sh : nat * nat * nat)
    : Prop :=
  length x = sh.1.1 ∧ Forall (λ m, has_shape2 m (sh.1.2, sh.2)) x.

(** *** [Sequential] and [fit] *)

(** [layers.Dense(units, activation=...)], as the notebooks stack them. *)
Inductive layer : Type :=
  | Dense (units : nat) (activation : string).

(** The stack of [lecture 4/ClassificationNN.ipynb]. *)
Definition stack_16_16_1 : list layer :=
  [Dense 16 "relu"; Dense 16 "relu"; Dense 1 "sigmoid"].

(** Modelled from the spec: the batching inside [model.fit], see [fit].
    "Mini-batches of a fixed size": [batch_size] examples each, the last
    one possibly shorter. *)
Fixpoint make_batches {A} (fuel batch_size : nat) (data : list A)
    : list (list A) :=
  match fuel, data with
  | S fuel, _ :: _ =>
      take batch_size data :: make_batches fuel batch_size (drop batch_size data)
  | _, _ => []
  end.

(** The check recorded in the traceback of the notebook: "Input arrays
    should have the same number of samples as target arrays. Found 25000
    input samples and 10000 target samples." *)
Definition check_array_length_consistency
    (inputs : list (list float)) (targets : list float) : result () :=
  if decide (length inputs = length targets) then Ok () else Raise ValueError.

(** Modelled from the spec: the history kept by [model.fit], see [fit].
    "A mapping from metric name [...] to an ordered sequence of per-epoch
    scalar values": the values logged for an epoch are appended, each
    under its name. *)
Definition on_epoch_end (history : gmap string (list float))
    (logs : list (string * float)) : gmap string (list float) :=
  foldl (λ h kv, <[kv.1 := default [] (h !! kv.1) ++ [kv.2]]> h) history logs.

(** The names under which an epoch is logged, as the notebook reads
    them back: [history.history['loss']], [['acc']], [['val_loss']],
    [['val_acc']]; the last two only with validation data. *)
Definition log_keys {A} (validation_data : option A) : list string :=
  ["loss"; "acc"]
  ++ match validation_data with
     | Some _ => ["val_loss"; "val_acc"]
     | None => []
     end.

Section fit.
(** The numeric engine of Keras is left open: a model state, one
    gradient step on a mini-batch, and the evaluation of loss and
    accuracy on a data set.  Nothing below depends on what they
    compute. *)
Context {weights : Type}.
Variable train_on_batch : weights → list (list float * float) → weights.
Variable evaluate : weights → list (list float) → list float → float * float.

(** [models.Sequential()]: the stack of layers and the state the fit
    updates. *)
Record Sequential : Type := mk_Sequential {
  layers : list layer;
  state : weights
}.

(** Modelled from the spec: the values [model.fit] logs at the end of an
    epoch, see [fit]: training loss and accuracy, and validation loss and
    accuracy when a validation set is supplied. *)
Definition epoch_logs (w : weights) (x : list (list float)) (y : list float)
    (validation_data : option (list (list float) * list float))
    : list (string * float) :=
  let train := evaluate w x y in
  [("loss", train.1); ("acc", train.2)]
  ++ match validation_data with
     | Some (x_val, y_val) =>
         let val := evaluate w x_val y_val in
         [("val_loss", val.1); ("val_acc", val.2)]
     | None => []
     end.

(** Modelled from the spec: the epochs of [model.fit], see [fit]: each
    epoch trains on every mini-batch in turn and then logs. *)
Fixpoint fit_loop (epochs : nat) (batches : list (list (list float * float)))
    (x : list (list float)) (y : list float)
    (validation_data : option (list (list float) * list float))
    (w : weights) (history : gmap string (list float))
    : weights * gmap string (list float) :=
  match epochs with
  | 0 => (w, history)
  | S epochs =>
      let w' := foldl train_on_batch w batches in
      fit_loop epochs batches x y validation_data w'
        (on_epoch_end history (epoch_logs w' x y validation_data))
  end.

(** Modelled from the spec: [model.fit], which the notebooks call and do
    not define.  "Run a fixed number of training epochs over mini-batches
    of a fixed size, optionally [...] using a separately supplied
    validation set; collect the per-epoch history"; the history is "a
    mapping from metric name [...] to an ordered sequence of per-epoch
    scalar values".  The example counts are checked first, as the
    traceback of the notebook records, see
    [check_array_length_consistency].  The call returns the trained model
    and the history. *)
Definition fit (model : Sequential) (x : list (list float)) (y : list float)
    (epochs batch_size : nat)
    (validation_data : option (list (list float) * list float))
    : result (Sequential * gmap string (list float)) :=
  _ ← check_array_length_consistency x y;
  _ ← match validation_data with
      | Some (x_val, y_val) => check_array_length_consistency x_val y_val
      | None => Ok ()
      end;
  let batches := make_batches (length x) batch_size (zip x y) in
  let r := fit_loop epochs batches x y validation_data (state model) ∅ in
  Ok (mk_Sequential (layers model) r.1, r.2).

End fit.

End keras.

(** ** The scikit-learn call of the instructor's cell *)

Module sklearn.

(** [safe_indexing(X, indices)]: the rows of [X] at [indices]. *)
Definition safe_indexing {A} (X : list A) (indices : list nat) : result (list A) :=
  mapM (λ i, match X !! i with Some x => Ok x | None => Raise IndexError end)
    indices.

(** Before it splits, scikit-learn checks that the arrays have the same
    number of rows, and raises [ValueError] when they have not.  The
    check is the library's: the notebook records the last line of the
    function only. *)
Definition check_consistent_length {A} (arrays : list (list A)) : result () :=
  match arrays with
  | [] => Ok ()
  | a :: rest =>
      if decide (Forall (λ b, length b = length a) rest) then Ok ()
      else Raise ValueError
  end.

(** The last line of [train_test_split], as the traceback of the
    notebook shows it:
<<
return list(chain.from_iterable((safe_indexing(a, train),
                                 safe_indexing(a, test)) for a in arrays))
>>
    [train] and [test] are the row numbers drawn by the shuffle. *)
Definition split_arrays {A} (arrays : list (list A)) (train test : list nat)
    : result (list (list A)) :=
  parts ← mapM (λ a, a_train ← safe_indexing a train;
                     a_test ← safe_indexing a test;
                     Ok [a_train; a_test]) arrays;
  Ok (concat parts).

(** [train_test_split] on a list of arrays: a call without an array
    raises [ValueError]; then the check, then the split. *)
Definition train_test_split {A} (arrays : list (list A)) (train test : list nat)
    : result (list (list A)) :=
  if decide (length arrays = 0) then Raise ValueError
  else
    _ ← check_consistent_length arrays;
    split_arrays arrays train test.

End sklearn.

(** The instructor's cells of [lecture 4/ClassificationNN.ipynb].

<<
XTRAIN = pd.DataFrame(x_train)
x_data, x_val, y_data, y_val = train_test_split(XTRAIN, train_size = 0.60)
>>

    The assignment to four names raises [ValueError] unless the list has
    four elements. *)
Definition unpack4 {A} (l : list A) : result (A * A * A * A) :=
  match l with
  | [a; b; c; d] => Ok (a, b, c, d)
  | _ => Raise ValueError
  end.

Definition instructor_split {A} (XTRAIN : list A) (train test : list nat)
    : result (list A * list A * list A * list A) :=
  sklearn.train_test_split [XTRAIN] train test ≫= unpack4.

(** The sizes of the dataset: 25000 reviews in each split, and the 10000
    target samples of the recorded [model.fit(x_train, val_data, ...)]. *)
Definition train_samples : nat := Z.to_nat 25000.
Definition val_data_samples : nat := Z.to_nat 10000.

(** ** The executed copy of [lecture 4/ClassificationNN.ipynb]

<<
def vectorize_sequences(sequences, dimension=10000):
    results = np.zeros((len(sequences), dimension))
    print(results.shape)
    for i, sequence in enumerate(sequences):
        results[i, sequence] = 1.
    return results

x_train = vectorize_sequences(train_data)
x_test = vectorize_sequences(test_data)
>>

    The copy that was run prints the shape before the loop.  The lines
    printed so far are threaded through the calls. *)

Module executed.

(** [print(results.shape)]: the line Python prints for a pair of
    integers. *)
Definition print_shape (sh : nat * nat) : string :=
  "(" +:+ pretty sh.1 +:+ ", " +:+ pretty sh.2 +:+ ")".

Definition vectorize_sequences (sequences : list (list Z)) (dimension : nat)
    (stdout : list string) : list string * result np.ndarray :=
  let results := np.zeros (length sequences, dimension) in
  let stdout := stdout ++ [print_shape (np.shape results)] in
  (stdout, vectorize_loop 0 sequences results).

(** The two assignments of the cell; an exception of the first call ends
    the cell. *)
Definition prepare_data (train_data test_data : list (list Z))
    (stdout : list string) : list string * result (np.ndarray * np.ndarray) :=
  let r_train := vectorize_sequences train_data dimension_default stdout in
  match r_train.2 with
  | Raise e => (r_train.1, Raise e)
  | Ok x_train =>
      let r_test := vectorize_sequences test_data dimension_default r_train.1 in
      (r_test.1, x_test ← r_test.2; Ok (x_train, x_test))
  end.

End executed.

(** The number of entries of a row that equal [1.0]. *)
Definition count_ones (row : list float) : nat :=
  length (filter (λ x, PrimFloat.eqb x 1%float = true) row).

(** * Properties *)

(** ** Results *)

Section result_facts.
Context {A B : Type} (f : A → result B).

Lemma mapM_Ok_map (g : A → B) (l : list A) :
  Forall (λ x, f x = Ok (g x)) l → mapM f l = Ok (g <$> l).
Proof.
  induction 1 as [|x l Hx _ IH]; [done|].
  cbn. rewrite Hx. cbn. fold (mapM f l). by rewrite IH.
Qed.

Lemma mapM_Raise (e : exception) (l : list A) :
  Forall (λ x, f x = Raise e ∨ returns (f x)) l →
  Exists (λ x, f x = Raise e) l → mapM f l = Raise e.
Proof.
  intros Hall Hex. induction l as [|x l IH]; [by inversion Hex|].
  apply Forall_cons in Hall as [Hx Hall]. cbn. fold (mapM f l).
  destruct Hx as [->|[y Hy]]; [done|]. rewrite Hy. cbn.
  apply Exists_cons in Hex as [Hex|Hex]; [congruence|].
  by rewrite IH.
Qed.

Lemma mapM_cons (x : A) (l : list A) :
  mapM f (x :: l) = y ← f x; k ← mapM f l; Ok (y :: k).
Proof. reflexivity. Qed.

Lemma mapM_app (l1 l2 : list A) :
  mapM f (l1 ++ l2) = k1 ← mapM f l1; k2 ← mapM f l2; Ok (k1 ++ k2).
Proof.
  induction l1 as [|x l1 IH]; cbn.
  - fold (mapM f l2). by destruct (mapM f l2).
  - fold (mapM f (l1 ++ l2)) (mapM f l1). rewrite IH. clear IH.
    destruct (f x); cbn; [|done]. destruct (mapM f l1); cbn; [|done].
    fold (mapM f l2). by destruct (mapM f l2).
Qed.

Lemma mapM_Ok_Forall2 (l : list A) (k : list B) :
  mapM f l = Ok k → Forall2 (λ x y, f x = Ok y) l k.
Proof.
  revert k. induction l as [|x l IH]; intros k; cbn.
  - intros [= <-]. constructor.
  - fold (mapM f l). destruct (f x) as [y|] eqn:Hx; cbn; [|done].
    destruct (mapM f l) as [k'|]; cbn; [|done].
    intros [= <-]. constructor; auto.
Qed.
End result_facts.

(** ** NumPy *)

Lemma zero_ne_one : 0%float ≠ 1%float.
Proof.
  intros H.
  assert (PrimFloat.eqb 0 0 = PrimFloat.eqb 1 0) as E by (rewrite H; reflexivity).
  vm_compute in E. discriminate.
Qed.

Section np_facts.
Implicit Types (row : list float) (js : list nat) (v : float) (d : nat).

Lemma put_cons v row j js : np.put v row (j :: js) = np.put v (<[j:=v]> row) js.
Proof. reflexivity. Qed.

Lemma length_put v row js : length (np.put v row js) = length row.
Proof.
  revert row. induction js as [|j js IH]; intros row; [done|].
  by rewrite put_cons, IH, length_insert.
Qed.

(** A written row holds [v] at the listed positions and is unchanged
    elsewhere. *)
Lemma lookup_put v row js (j : nat) :
  np.put v row js !! j = (λ x, if decide (j ∈ js) then v else x) <$> row !! j.
Proof.
  revert row. induction js as [|a js IH]; intros row.
  - cbn. destruct (row !! j); cbn; [|done].
    by rewrite decide_False by apply not_elem_of_nil.
  - rewrite put_cons, IH. destruct (decide (a = j)) as [->|Hne].
    + destruct (row !! j) as [x|] eqn:Hj.
      * rewrite list_lookup_insert_eq by (by eapply lookup_lt_Some). cbn.
        rewrite (decide_True (P := j ∈ j :: js)) by (apply elem_of_cons; by left).
        by destruct (decide (j ∈ js)).
      * rewrite list_insert_ge by (by apply lookup_ge_None). by rewrite Hj.
    + rewrite list_lookup_insert_ne by done.
      destruct (row !! j); cbn; [|done]. f_equal.
      apply decide_ext. rewrite elem_of_cons.
      split; [by right|]. by intros [->|?].
Qed.

(** The written row depends only on which positions are listed. *)
Lemma put_ext v row js js' :
  (∀ j, j ∈ js ↔ j ∈ js') → np.put v row js = np.put v row js'.
Proof.
  intros Hjs. apply list_eq. intros j. rewrite !lookup_put.
  destruct (row !! j); cbn; [|done]. f_equal. by apply decide_ext.
Qed.

Lemma check_and_adjust_index_in_range d (t : Z) :
  (0 ≤ t < Z.of_nat d)%Z → np.check_and_adjust_index d t = Ok (Z.to_nat t).
Proof.
  intros. unfold np.check_and_adjust_index.
  rewrite decide_False by lia. by rewrite decide_False by lia.
Qed.

Lemma check_and_adjust_index_from_end d (t : Z) :
  (- Z.of_nat d ≤ t < 0)%Z →
  np.check_and_adjust_index d t = Ok (Z.to_nat (t + Z.of_nat d)).
Proof.
  intros. unfold np.check_and_adjust_index.
  rewrite decide_False by lia. by rewrite decide_True by lia.
Qed.

Lemma check_and_adjust_index_out d (t : Z) :
  (t < - Z.of_nat d ∨ Z.of_nat d ≤ t)%Z →
  np.check_and_adjust_index d t = Raise IndexError.
Proof.
  intros. unfold np.check_and_adjust_index. by rewrite decide_True.
Qed.

Lemma check_and_adjust_index_cases d (t : Z) :
  np.check_and_adjust_index d t = Raise IndexError
  ∨ returns (np.check_and_adjust_index d t).
Proof.
  unfold np.check_and_adjust_index, returns.
  repeat case_decide; eauto.
Qed.

Lemma check_and_adjust_index_lt d (t : Z) (j : nat) :
  np.check_and_adjust_index d t = Ok j → j < d.
Proof.
  unfold np.check_and_adjust_index.
  repeat case_decide; intros [= <-]; lia.
Qed.
End np_facts.

(** ** The loop of [vectorize_sequences] *)

Section vectorize_facts.
Implicit Types (sequences : list (list Z)) (sequence : list Z).
Implicit Types (pre post : list (list float)) (sh : nat * nat).

(** One pass of the body, on the row after [pre]. *)
Lemma setitem_row sh pre post (row : list float) sequence (v : float) :
  np.setitem (np.mk_ndarray sh (pre ++ row :: post)) (length pre) sequence v
  = js ← mapM (np.check_and_adjust_index sh.2) sequence;
    Ok (np.mk_ndarray sh (pre ++ np.put v row js :: post)).
Proof.
  unfold np.setitem. cbn [np.rows np.shape].
  rewrite list_lookup_middle by done.
  destruct (mapM _ sequence) as [js|]; cbn; [|done].
  do 2 f_equal. by rewrite insert_app_r_alt, Nat.sub_diag by done.
Qed.

(** The loop started at row [length pre] fills the next
    [length sequences] zero rows, one review each, and leaves the rest
    of the array alone. *)
Lemma vectorize_loop_rows sequences : ∀ sh pre post,
  vectorize_loop (length pre) sequences
    (np.mk_ndarray sh
       (pre ++ replicate (length sequences) (replicate sh.2 0%float) ++ post))
  = rs ← mapM (vectorize_row sh.2) sequences;
    Ok (np.mk_ndarray sh (pre ++ rs ++ post)).
Proof.
  induction sequences as [|sequence rest IH]; intros sh pre post; [done|].
  cbn [vectorize_loop length replicate app].
  rewrite setitem_row, mapM_cons.
  specialize (IH sh). set (R := mapM (vectorize_row sh.2) rest) in *.
  unfold vectorize_row.
  destruct (mapM _ sequence) as [js|]; cbn; [|done].
  specialize (IH (pre ++ [np.put 1%float (replicate sh.2 0%float) js]) post).
  rewrite length_app, Nat.add_1_r, <-!(assoc_L (++)) in IH. cbn in IH.
  rewrite IH. destruct R as [rs|]; cbn; [|done].
  by rewrite <-(assoc_L (++)).
Qed.

(** The call as a whole: each review gives its own row. *)
Lemma vectorize_sequences_rows sequences (dimension : nat) :
  vectorize_sequences sequences dimension
  = rs ← mapM (vectorize_row dimension) sequences;
    Ok (np.mk_ndarray (length sequences, dimension) rs).
Proof.
  unfold vectorize_sequences, np.zeros. cbn [fst snd].
  pose proof (vectorize_loop_rows sequences (length sequences, dimension) [] [])
    as H.
  cbn [length app fst snd] in H. rewrite app_nil_r in H. rewrite H.
  destruct (mapM _ sequences); cbn; [|done]. by rewrite app_nil_r.
Qed.
End vectorize_facts.

(** ** One review, one row *)

Section row_facts.
Implicit Types (sequence : list Z) (d : nat).

(** The position NumPy writes for an index it accepts. *)
Lemma check_and_adjust_index_Ok d (t : Z) :
  (- Z.of_nat d ≤ t < Z.of_nat d)%Z →
  np.check_and_adjust_index d t = Ok (Z.to_nat (t `mod` Z.of_nat d)).
Proof.
  intros Ht. destruct (decide (0 ≤ t)%Z).
  - rewrite check_and_adjust_index_in_range by lia.
    by rewrite Z.mod_small by lia.
  - rewrite check_and_adjust_index_from_end by lia. do 2 f_equal.
    apply Z.mod_unique_pos with (-1)%Z; lia.
Qed.

Lemma vectorize_row_Ok d sequence :
  Forall (λ t, - Z.of_nat d ≤ t < Z.of_nat d)%Z sequence →
  vectorize_row d sequence
  = Ok (np.put 1%float (replicate d 0%float)
          ((λ t, Z.to_nat (t `mod` Z.of_nat d)) <$> sequence)).
Proof.
  intros Hall. unfold vectorize_row.
  rewrite (mapM_Ok_map _ (λ t, Z.to_nat (t `mod` Z.of_nat d))); [done|].
  eapply Forall_impl; [done|]. intros t. apply check_and_adjust_index_Ok.
Qed.

Lemma vectorize_row_in_range d sequence :
  Forall (λ t, 0 ≤ t < Z.of_nat d)%Z sequence →
  vectorize_row d sequence
  = Ok (np.put 1%float (replicate d 0%float) (Z.to_nat <$> sequence)).
Proof.
  intros Hall. unfold vectorize_row.
  rewrite (mapM_Ok_map _ Z.to_nat); [done|].
  eapply Forall_impl; [done|]. intros t. apply check_and_adjust_index_in_range.
Qed.

Lemma vectorize_row_Raise d sequence :
  Exists (λ t, t < - Z.of_nat d ∨ Z.of_nat d ≤ t)%Z sequence →
  vectorize_row d sequence = Raise IndexError.
Proof.
  intros Hex. unfold vectorize_row. rewrite (mapM_Raise _ IndexError); [done| |].
  - apply Forall_forall. intros t _. apply check_and_adjust_index_cases.
  - eapply Exists_impl; [done|]. intros t. apply check_and_adjust_index_out.
Qed.

Lemma vectorize_row_cases d sequence :
  vectorize_row d sequence = Raise IndexError ∨ returns (vectorize_row d sequence).
Proof.
  destruct (decide (Forall (λ t, - Z.of_nat d ≤ t < Z.of_nat d)%Z sequence))
    as [Hall|Hex].
  - right. rewrite vectorize_row_Ok by done. by eexists.
  - left. apply vectorize_row_Raise. apply not_Forall_Exists in Hex; [|apply _].
    eapply Exists_impl; [done|]. cbn. lia.
Qed.

(** A row depends only on the set of integers in the review. *)
Lemma vectorize_row_ext d sequence sequence' :
  (∀ t, t ∈ sequence ↔ t ∈ sequence') →
  vectorize_row d sequence = vectorize_row d sequence'.
Proof.
  intros Hset.
  destruct (decide (Forall (λ t, - Z.of_nat d ≤ t < Z.of_nat d)%Z sequence))
    as [Hall|Hex].
  - assert (Forall (λ t, - Z.of_nat d ≤ t < Z.of_nat d)%Z sequence') as Hall'.
    { rewrite Forall_forall in Hall |- *. intros t Ht. by apply Hall, Hset. }
    rewrite !vectorize_row_Ok by done. f_equal. apply put_ext. intros j.
    rewrite !list_elem_of_fmap. by setoid_rewrite Hset.
  - apply not_Forall_Exists in Hex; [|apply _].
    assert (Exists (λ t, ¬ (- Z.of_nat d ≤ t < Z.of_nat d)%Z) sequence') as Hex'.
    { rewrite Exists_exists in Hex |- *. destruct Hex as (t & Ht & Hbad).
      exists t. split; [by apply Hset|done]. }
    rewrite !vectorize_row_Raise; [done| |].
    + eapply Exists_impl; [exact Hex'|]. cbn. lia.
    + eapply Exists_impl; [exact Hex|]. cbn. lia.
Qed.

Lemma length_vectorize_row d sequence (row : list float) :
  vectorize_row d sequence = Ok row → length row = d.
Proof.
  unfold vectorize_row. destruct (mapM _ sequence); cbn; [|done].
  intros [= <-]. by rewrite length_put, length_replicate.
Qed.

(** A row holds only zeros and ones. *)
Lemma vectorize_row_zero_one d sequence (row : list float) (j : nat) (x : float) :
  vectorize_row d sequence = Ok row → row !! j = Some x →
  x = 0%float ∨ x = 1%float.
Proof.
  unfold vectorize_row. destruct (mapM _ sequence) as [js|]; cbn; [|done].
  intros [= <-]. rewrite lookup_put. intros Hx.
  apply fmap_Some in Hx as (z & Hz & ->).
  apply lookup_replicate in Hz as [-> _]. case_decide; auto.
Qed.

(** In range, the one entries of a row are the integers of the review. *)
Lemma vectorize_row_one d sequence (row : list float) (j : nat) :
  Forall (λ t, 0 ≤ t < Z.of_nat d)%Z sequence →
  vectorize_row d sequence = Ok row → j < d →
  row !! j = Some 1%float ↔ Z.of_nat j ∈ sequence.
Proof.
  intros Hall Hrow Hj. rewrite vectorize_row_in_range in Hrow by done.
  injection Hrow as <-. rewrite lookup_put, lookup_replicate_2 by done. cbn.
  rewrite Forall_forall in Hall. case_decide as Hin.
  - split; [intros _|done]. apply list_elem_of_fmap in Hin as (t & -> & Ht).
    specialize (Hall t Ht). by rewrite Z2Nat.id by lia.
  - split; [intros [= H]; by destruct zero_ne_one|].
    intros Ht. destruct Hin. apply list_elem_of_fmap.
    exists (Z.of_nat j). by rewrite Nat2Z.id.
Qed.
End row_facts.

(** ** The whole call *)

Section call_facts.
Implicit Types (sequences : list (list Z)) (sequence : list Z) (d : nat).

Lemma Forall_Forall_impl {A} (P Q : A → Prop) (ls : list (list A)) :
  (∀ a, P a → Q a) → Forall (Forall P) ls → Forall (Forall Q) ls.
Proof.
  intros HPQ Hls. eapply Forall_impl; [exact Hls|]. intros l Hl.
  by eapply Forall_impl.
Qed.

Lemma Exists_Exists_impl {A} (P Q : A → Prop) (ls : list (list A)) :
  (∀ a, P a → Q a) → Exists (Exists P) ls → Exists (Exists Q) ls.
Proof.
  intros HPQ Hls. eapply Exists_impl; [exact Hls|]. intros l Hl.
  by eapply Exists_impl.
Qed.

(** Word ranks below the vocabulary size are in-range column indices. *)
Lemma integers_in_range (reviews : list (list N)) :
  Forall (Forall (λ t, t < 10000)%N) reviews →
  Forall (Forall (λ t, 0 ≤ t < Z.of_nat dimension_default)%Z) (integers reviews).
Proof.
  intros Hlt. unfold integers. apply Forall_fmap.
  eapply Forall_impl; [exact Hlt|]. intros review Hr. apply Forall_fmap.
  eapply Forall_impl; [exact Hr|]. cbn. unfold dimension_default. lia.
Qed.

Lemma length_integers (reviews : list (list N)) :
  length (integers reviews) = length reviews.
Proof. unfold integers. by rewrite length_fmap. Qed.

Lemma lookup_integers (reviews : list (list N)) (i : nat) :
  integers reviews !! i = (λ review : list N, Z.of_N <$> review) <$> reviews !! i.
Proof. unfold integers. by rewrite list_lookup_fmap. Qed.

(** What a returned array looks like: the shape asked for, and row [i]
    is the row of review [i]. *)
Lemma vectorize_sequences_Ok sequences d (results : np.ndarray) :
  vectorize_sequences sequences d = Ok results →
  np.shape results = (length sequences, d)
  ∧ Forall2 (λ sequence row, vectorize_row d sequence = Ok row)
      sequences (np.rows results).
Proof.
  rewrite vectorize_sequences_rows.
  destruct (mapM _ sequences) as [rs|] eqn:Hrs; cbn; [|done].
  intros [= <-]. split; [done|]. by apply mapM_Ok_Forall2.
Qed.

Lemma vectorize_sequences_wf sequences d (results : np.ndarray) :
  vectorize_sequences sequences d = Ok results → np.wf results.
Proof.
  intros (Hsh & Hrows)%vectorize_sequences_Ok. unfold np.wf. rewrite Hsh. cbn.
  split; [symmetry; by eapply Forall2_length|].
  apply Forall_forall. intros row Hrow.
  apply list_elem_of_lookup in Hrow as [i Hi].
  destruct (Forall2_lookup_r _ _ _ _ _ Hrows Hi) as (sequence & _ & Hs).
  by eapply length_vectorize_row.
Qed.

Lemma vectorize_sequences_returns sequences d :
  Forall (Forall (λ t, - Z.of_nat d ≤ t < Z.of_nat d)%Z) sequences →
  returns (vectorize_sequences sequences d).
Proof.
  intros Hall. rewrite vectorize_sequences_rows.
  rewrite (mapM_Ok_map _
    (λ s, np.put 1%float (replicate d 0%float)
            ((λ t, Z.to_nat (t `mod` Z.of_nat d)) <$> s))).
  - by eexists.
  - eapply Forall_impl; [done|]. intros s. apply vectorize_row_Ok.
Qed.

Lemma vectorize_sequences_Raise sequences d :
  Exists (Exists (λ t, t < - Z.of_nat d ∨ Z.of_nat d ≤ t)%Z) sequences →
  vectorize_sequences sequences d = Raise IndexError.
Proof.
  intros Hex. rewrite vectorize_sequences_rows.
  rewrite (mapM_Raise _ IndexError); [done| |].
  - apply Forall_forall. intros s _. apply vectorize_row_cases.
  - eapply Exists_impl; [done|]. intros s. apply vectorize_row_Raise.
Qed.

(** The call returns exactly on the inputs NumPy accepts as indices. *)
Lemma vectorize_sequences_returns_iff sequences d :
  returns (vectorize_sequences sequences d)
  ↔ Forall (Forall (λ t, - Z.of_nat d ≤ t < Z.of_nat d)%Z) sequences.
Proof.
  split; [|apply vectorize_sequences_returns].
  intros [results Hres].
  destruct (decide (Forall (Forall (λ t,
    - Z.of_nat d ≤ t < Z.of_nat d)%Z) sequences)) as [|Hex]; [done|].
  rewrite vectorize_sequences_Raise in Hres; [done|].
  apply not_Forall_Exists in Hex; [|apply _].
  eapply Exists_impl; [done|]. intros s Hs. cbn in Hs.
  apply not_Forall_Exists in Hs; [|apply _].
  eapply Exists_impl; [done|]. cbn. lia.
Qed.

(** Rows set-equal review by review give the same call. *)
Lemma vectorize_sequences_ext sequences sequences' d :
  Forall2 (λ s s', ∀ t, t ∈ s ↔ t ∈ s') sequences sequences' →
  vectorize_sequences sequences d = vectorize_sequences sequences' d.
Proof.
  intros Hss. rewrite !vectorize_sequences_rows.
  rewrite (Forall2_length _ _ _ Hss). f_equal.
  induction Hss as [|s s' ss ss' Hs _ IH]; [done|].
  by rewrite !mapM_cons, IH, (vectorize_row_ext d s s').
Qed.

(** NumPy counts a negative integer from the end of the row: the review
    [[-1]] sets the last column. *)
Lemma vectorize_sequences_from_end :
  vectorize_sequences [[-1]%Z] 3
  = Ok (np.mk_ndarray (1, 3) [[0%float; 0%float; 1%float]]).
Proof. reflexivity. Qed.
End call_facts.

(** ** The multi-hot encoding *)

(** C1: a token index is a word rank, a natural number.  For every list
    of reviews whose token indices all lie below 10000,
    [vectorize_sequences] returns an array of shape
    [(number of reviews, 10000)] whose rows all have 10000 entries, every
    entry is [0.0] or [1.0], and entry [(i, j)] is [1.0] exactly when
    word index [j] occurs in review [i]. *)
Theorem vectorize_sequences_multi_hot (reviews : list (list N)) :
  Forall (Forall (λ t, t < 10000)%N) reviews →
  ∃ results : np.ndarray,
    vectorize_sequences (integers reviews) dimension_default = Ok results
    ∧ np.shape results = (length reviews, dimension_default)
    ∧ np.wf results
    ∧ (∀ i j x, np.getitem results i j = Some x → x = 0%float ∨ x = 1%float)
    ∧ (∀ i j review, reviews !! i = Some review → j < dimension_default →
         np.getitem results i j = Some 1%float ↔ N.of_nat j ∈ review).
Proof.
  intros Hlt. pose proof (integers_in_range reviews Hlt) as Hrange.
  destruct (vectorize_sequences_returns (integers reviews) dimension_default)
    as [results Hres].
  { eapply Forall_Forall_impl; [|exact Hrange]. cbn. lia. }
  exists results. split; [done|].
  destruct (vectorize_sequences_Ok _ _ _ Hres) as [Hsh Hrows].
  split; [by rewrite Hsh, length_integers|].
  split; [by eapply vectorize_sequences_wf|]. split.
  - intros i j x. unfold np.getitem.
    destruct (np.rows results !! i) as [row|] eqn:Hi; cbn; [|done].
    destruct (Forall2_lookup_r _ _ _ _ _ Hrows Hi) as (s & _ & Hs).
    by eapply vectorize_row_zero_one.
  - intros i j review Hi Hj.
    assert (integers reviews !! i = Some (Z.of_N <$> review)) as Hsi
      by (by rewrite lookup_integers, Hi).
    destruct (Forall2_lookup_l _ _ _ _ _ Hrows Hsi) as (row & Hrow & Hs).
    unfold np.getitem. rewrite Hrow. cbn.
    rewrite (vectorize_row_one dimension_default (Z.of_N <$> review)); [|
      by eapply Forall_lookup_1 in Hrange|done|done].
    rewrite list_elem_of_fmap. split.
    + intros (t & Heq & Ht). by replace (N.of_nat j) with t by lia.
    + intros Ht. exists (N.of_nat j). split; [lia|done].
Qed.

Lemma vectorize_sequences_multi_hot_witness :
  ∃ results : np.ndarray,
    vectorize_sequences (integers [[3; 1; 1]; []; [9999; 0]]%N)
      dimension_default = Ok results
    ∧ np.shape results = (3, dimension_default)
    ∧ np.wf results
    ∧ (∀ i j x, np.getitem results i j = Some x → x = 0%float ∨ x = 1%float)
    ∧ (∀ i j review, [[3; 1; 1]; []; [9999; 0]]%N !! i = Some review →
         j < dimension_default →
         np.getitem results i j = Some 1%float ↔ N.of_nat j ∈ review).
Proof.
  apply (vectorize_sequences_multi_hot [[3; 1; 1]; []; [9999; 0]]%N).
  repeat constructor.
Defined.

(** C4: the encoding discards order and repetition.  Inside any batch,
    replacing a review by a permutation of it, by the review without its
    duplicates, or by any review with the same set of integers, leaves
    the result of [vectorize_sequences] (and so the row of that review)
    unchanged. *)
Theorem vectorize_sequences_order_repetition
    (before after : list (list Z)) (review review' : list Z) (dimension : nat) :
  review' ≡ₚ review ∨ review' = remove_dups review
    ∨ (∀ t, t ∈ review' ↔ t ∈ review) →
  vectorize_sequences (before ++ review' :: after) dimension
  = vectorize_sequences (before ++ review :: after) dimension.
Proof.
  intros Hsame. apply vectorize_sequences_ext.
  apply Forall2_app; [by apply Forall_Forall2_diag, Forall_true|].
  constructor; [|by apply Forall_Forall2_diag, Forall_true].
  destruct Hsame as [Hperm|[->|Hset]]; intros t.
  - by rewrite Hperm.
  - apply elem_of_remove_dups.
  - apply Hset.
Qed.

Lemma vectorize_sequences_order_repetition_witness :
  vectorize_sequences ([[7]] ++ [1; 3] :: [[0; 2]])%Z 8
  = vectorize_sequences ([[7]] ++ [3; 1; 3; 3] :: [[0; 2]])%Z 8.
Proof.
  apply (vectorize_sequences_order_repetition [[7]] [[0; 2]] [3; 1; 3; 3] [1; 3])%Z.
  right. right. intros t. rewrite !elem_of_cons, !elem_of_nil. lia.
Defined.




(** C10: the call is row-local.  On a concatenation of two batches it
    gives the rows of the first batch stacked above the rows of the
    second ([np.vstack]), an exception of either batch being raised by
    the whole; and row [i] of a returned array is the one row the call
    returns for review [i] alone. *)
Theorem vectorize_sequences_row_local
    (s1 s2 : list (list Z)) (dimension : nat) :
  vectorize_sequences (s1 ++ s2) dimension
  = (a ← vectorize_sequences s1 dimension;
     b ← vectorize_sequences s2 dimension;
     np.vstack a b)
  ∧ (∀ (results : np.ndarray) (i : nat) (review : list Z),
       vectorize_sequences s1 dimension = Ok results →
       s1 !! i = Some review →
       ∃ row, np.rows results !! i = Some row
         ∧ vectorize_sequences [review] dimension
           = Ok (np.mk_ndarray (1, dimension) [row])).
Proof.
  split.
  - rewrite !vectorize_sequences_rows, mapM_app, length_app.
    destruct (mapM _ s1) as [rs1|]; cbn; [|done].
    destruct (mapM _ s2) as [rs2|]; cbn; [|done].
    unfold np.vstack. cbn. by rewrite decide_True.
  - intros results i review Hres Hi.
    destruct (vectorize_sequences_Ok _ _ _ Hres) as [_ Hrows].
    destruct (Forall2_lookup_l _ _ _ _ _ Hrows Hi) as (row & Hrow & Hs).
    exists row. split; [done|].
    by rewrite vectorize_sequences_rows, mapM_cons, Hs.
Qed.

Lemma vectorize_sequences_row_local_witness :
  ∃ row, np.rows (np.mk_ndarray (2, 3)
                    [[0%float; 1%float; 0%float]; [1%float; 0%float; 1%float]])
           !! 1 = Some row
    ∧ vectorize_sequences [[2; 0; 2]%Z] 3 = Ok (np.mk_ndarray (1, 3) [row]).
Proof.
  apply (proj2 (vectorize_sequences_row_local [[1]; [2; 0; 2]]%Z [] 3)
           (np.mk_ndarray (2, 3)
              [[0%float; 1%float; 0%float]; [1%float; 0%float; 1%float]])
           1 [2; 0; 2]%Z); reflexivity.
Defined.

(** ** Padding and truncating *)

Section pad_facts.
Implicit Types (review : list Z) (maxlen : nat) (value : Z).

Lemma truncate_pre_drop maxlen review :
  keras.truncate_pre maxlen review = drop (length review - maxlen) review.
Proof.
  induction review as [|t rest IH]; [done|].
  cbn [keras.truncate_pre]. case_decide as Hlen.
  - by replace (length (t :: rest) - maxlen) with 0 by lia.
  - rewrite IH. cbn [length] in *.
    by replace (S (length rest) - maxlen) with (S (length rest - maxlen)) by lia.
Qed.

Lemma length_truncate_pre maxlen review :
  length (keras.truncate_pre maxlen review) = length review `min` maxlen.
Proof. rewrite truncate_pre_drop, length_drop. lia. Qed.

Lemma pad_pre_replicate (missing : nat) value review :
  keras.pad_pre missing value review = replicate missing value ++ review.
Proof. induction missing as [|n IH]; [done|]. cbn. by rewrite IH. Qed.

Lemma pad_sequence_unfold maxlen value review :
  keras.pad_sequence maxlen value review
  = replicate (maxlen - length review) value
    ++ drop (length review - maxlen) review.
Proof.
  unfold keras.pad_sequence. cbn zeta.
  rewrite pad_pre_replicate, length_truncate_pre, truncate_pre_drop.
  do 2 f_equal. lia.
Qed.

Lemma length_pad_sequence maxlen value review :
  length (keras.pad_sequence maxlen value review) = maxlen.
Proof.
  rewrite pad_sequence_unfold, length_app, length_replicate, length_drop. lia.
Qed.

(** A padded row holds the sentinel and tokens of the review, nothing
    else. *)
Lemma elem_of_pad_sequence maxlen value review (t : Z) :
  t ∈ keras.pad_sequence maxlen value review → t = value ∨ t ∈ review.
Proof.
  rewrite pad_sequence_unfold, elem_of_app. intros [Ht|Ht].
  - left. by apply elem_of_replicate in Ht as [-> _].
  - right. by eapply subseteq_drop.
Qed.

Lemma pad_sequences_shape (sequences : list (list Z)) maxlen value :
  keras.has_shape2 (keras.pad_sequences sequences maxlen value)
    (length sequences, maxlen).
Proof.
  unfold keras.has_shape2, keras.pad_sequences. cbn [fst snd].
  split; [by rewrite length_fmap|].
  apply Forall_fmap, Forall_true. intros review. apply length_pad_sequence.
Qed.
End pad_facts.

(** C2: for every review and every target length [L], the padded or
    truncated review has exactly [L] integers; a review not longer than
    [L] gets the sentinel on the left, [L - length review] times; from a
    review not shorter than [L] the first [length review - L] tokens are
    dropped; and in every case the result is sentinels followed by a
    contiguous end of the review, so the retained tokens keep their
    order. *)
Theorem pad_sequence_exact_length (review : list Z) (L : nat) (value : Z) :
  length (keras.pad_sequence L value review) = L
  ∧ (length review ≤ L →
     keras.pad_sequence L value review
     = replicate (L - length review) value ++ review)
  ∧ (L ≤ length review →
     ∃ dropped, review = dropped ++ keras.pad_sequence L value review
       ∧ length dropped = length review - L)
  ∧ (∃ padding retained,
       keras.pad_sequence L value review = padding ++ retained
       ∧ Forall (λ t, t = value) padding
       ∧ retained `suffix_of` review
       ∧ retained `sublist_of` review).
Proof.
  split; [apply length_pad_sequence|]. rewrite pad_sequence_unfold.
  split; [|split].
  - intros Hle. by replace (length review - L) with 0 by lia.
  - intros Hle. exists (take (length review - L) review).
    replace (L - length review) with 0 by lia. cbn.
    split; [by rewrite take_drop|]. rewrite length_take. lia.
  - exists (replicate (L - length review) value),
      (drop (length review - L) review).
    split; [done|]. split; [by apply Forall_replicate|].
    split; [apply suffix_drop|apply sublist_drop].
Qed.

Lemma pad_sequence_exact_length_witness :
  keras.pad_sequence 5 0 [7; 8; 9]%Z = replicate (5 - 3) 0%Z ++ [7; 8; 9]%Z
  ∧ ∃ dropped, [1; 2; 3; 4]%Z = dropped ++ keras.pad_sequence 2 0 [1; 2; 3; 4]%Z
      ∧ length dropped = 4 - 2.
Proof.
  split.
  - apply (proj1 (proj2 (pad_sequence_exact_length [7; 8; 9]%Z 5 0%Z))).
    cbn. lia.
  - apply (proj1 (proj2 (proj2 (pad_sequence_exact_length [1; 2; 3; 4]%Z 2 0%Z)))).
    cbn. lia.
Defined.

(** ** The embedding pipeline *)

Section embedding_facts.
Implicit Types (layer : keras.Embedding) (inputs : list (list Z)).

Lemma embedding_lookup_in_table layer (t : Z) :
  (0 ≤ t < Z.of_nat (keras.input_dim layer))%Z → keras.built layer →
  ∃ vector, keras.embedding_lookup layer t = Some vector
    ∧ length vector = keras.output_dim layer.
Proof.
  intros Ht [Hlen Hwidth]. unfold keras.embedding_lookup.
  rewrite decide_True by lia.
  destruct (lookup_lt_is_Some_2 (keras.embeddings layer) (Z.to_nat t))
    as [vector Hv]; [lia|].
  exists vector. split; [done|].
  by eapply (Forall_lookup_1 _ _ _ _ Hwidth).
Qed.

(** The layer adds one axis of extent [output_dim] to an in-vocabulary
    input of any shape [(n, m)]. *)
Lemma embedding_call_shape layer inputs (n m : nat) :
  keras.built layer →
  Forall (Forall (λ t, 0 ≤ t < Z.of_nat (keras.input_dim layer))%Z) inputs →
  keras.has_shape2 inputs (n, m) →
  ∃ outputs, keras.embedding_call layer inputs = Some outputs
    ∧ keras.has_shape3 outputs (n, m, keras.output_dim layer).
Proof.
  intros Hbuilt Hvocab [Hn Hm]. cbn [fst snd] in *. unfold keras.embedding_call.
  destruct (mapM_is_Some_2 (mapM (keras.embedding_lookup layer)) inputs)
    as [outputs Hout].
  { eapply Forall_impl; [exact Hvocab|]. intros row Hrow. cbn.
    apply mapM_is_Some_2. eapply Forall_impl; [exact Hrow|]. intros t Ht. cbn.
    destruct (embedding_lookup_in_table layer t) as (v & -> & _); eauto. }
  exists outputs. split; [done|]. apply mapM_Some in Hout.
  split; cbn [fst snd]; [by rewrite <-(Forall2_length _ _ _ Hout)|].
  apply Forall_forall. intros vectors Hvs.
  apply list_elem_of_lookup in Hvs as [i Hi].
  destruct (Forall2_lookup_r _ _ _ _ _ Hout Hi) as (row & Hrow & Hvectors).
  apply mapM_Some in Hvectors. split; cbn [fst snd].
  - rewrite <-(Forall2_length _ _ _ Hvectors).
    by eapply (Forall_lookup_1 _ _ _ _ Hm).
  - apply Forall_forall. intros v Hv. apply list_elem_of_lookup in Hv as [j Hj].
    destruct (Forall2_lookup_r _ _ _ _ _ Hvectors Hj) as (t & Ht & Hlook).
    destruct (embedding_lookup_in_table layer t) as (v' & Hv' & Hlen);
      [|done|congruence].
    eapply Forall_lookup_1 in Hvocab; [|exact Hrow].
    by eapply Forall_lookup_1 in Hvocab.
Qed.
End embedding_facts.

(** C6: for every batch of [N] reviews over the 10000-word vocabulary,
    padded or truncated to length 20 with a sentinel of the vocabulary,
    the input tensor has shape [(N, 20)], and an embedding layer with
    input dimension 10000 and output dimension 8 returns a tensor of
    shape [(N, 20, 8)]. *)
Theorem embedding_pipeline_shapes
    (reviews : list (list N)) (value : Z) (layer : keras.Embedding) :
  Forall (Forall (λ t, t < 10000)%N) reviews →
  (0 ≤ value < 10000)%Z →
  keras.built layer →
  keras.input_dim layer = dimension_default →
  keras.output_dim layer = 8 →
  keras.has_shape2 (keras.pad_sequences (integers reviews) 20 value)
    (length reviews, 20)
  ∧ ∃ outputs,
      keras.embedding_call layer
        (keras.pad_sequences (integers reviews) 20 value) = Some outputs
      ∧ keras.has_shape3 outputs (length reviews, 20, 8).
Proof.
  intros Hlt Hvalue Hbuilt Hin Hout.
  assert (keras.has_shape2 (keras.pad_sequences (integers reviews) 20 value)
            (length reviews, 20)) as Hshape.
  { rewrite <-length_integers. apply pad_sequences_shape. }
  split; [done|].
  pose proof (λ H, embedding_call_shape layer _ _ _ Hbuilt H Hshape) as Hcall.
  rewrite Hout in Hcall. apply Hcall. clear Hcall.
  unfold keras.pad_sequences, integers. rewrite <-list_fmap_compose.
  apply Forall_fmap. eapply Forall_impl; [exact Hlt|]. intros review Hr. cbn.
  apply Forall_forall. intros t Ht. rewrite Hin. unfold dimension_default.
  apply elem_of_pad_sequence in Ht as [->|Ht]; [lia|].
  apply list_elem_of_fmap in Ht as (n & -> & Hn).
  rewrite Forall_forall in Hr. specialize (Hr n Hn). cbn in Hr. lia.
Qed.

Lemma embedding_pipeline_shapes_witness :
  keras.has_shape2
    (keras.pad_sequences (integers [[5; 9999]; []]%N) 20 0) (2, 20)
  ∧ ∃ outputs,
      keras.embedding_call
        (keras.mk_Embedding dimension_default 8
           (replicate dimension_default (replicate 8 0%float)))
        (keras.pad_sequences (integers [[5; 9999]; []]%N) 20 0) = Some outputs
      ∧ keras.has_shape3 outputs (2, 20, 8).
Proof.
  apply (embedding_pipeline_shapes [[5; 9999]; []]%N 0%Z
           (keras.mk_Embedding dimension_default 8
              (replicate dimension_default (replicate 8 0%float)))).
  - repeat constructor.
  - lia.
  - split; cbn.
    + apply length_replicate.
    + apply Forall_replicate. reflexivity.
  - reflexivity.
  - reflexivity.
Defined.

(** ** The history of a fit *)

Section history_facts.
Implicit Types (history : gmap string (list float)).
Implicit Types (logs : list (string * float)) (k : string).

Lemma on_epoch_end_cons history k (v : float) logs :
  keras.on_epoch_end history ((k, v) :: logs)
  = keras.on_epoch_end (<[k := default [] (history !! k) ++ [v]]> history) logs.
Proof. reflexivity. Qed.

(** A name that is not logged keeps its entry. *)
Lemma lookup_on_epoch_end_ne history logs k :
  k ∉ logs.*1 → keras.on_epoch_end history logs !! k = history !! k.
Proof.
  revert history. induction logs as [|[k0 v0] logs IH]; intros history Hk; [done|].
  rewrite on_epoch_end_cons. cbn in Hk. apply not_elem_of_cons in Hk as [Hne Hk].
  by rewrite IH, lookup_insert_ne.
Qed.

(** A logged name gets one more value. *)
Lemma lookup_on_epoch_end history logs k :
  NoDup logs.*1 → k ∈ logs.*1 →
  ∃ v, keras.on_epoch_end history logs !! k
       = Some (default [] (history !! k) ++ [v]).
Proof.
  revert history. induction logs as [|[k0 v0] logs IH]; intros history Hnd Hk.
  - by apply elem_of_nil in Hk.
  - rewrite on_epoch_end_cons. cbn in Hnd, Hk.
    apply NoDup_cons in Hnd as [Hk0 Hnd].
    apply elem_of_cons in Hk as [->|Hk].
    + exists v0. by rewrite lookup_on_epoch_end_ne, lookup_insert_eq.
    + destruct (IH (<[k0 := default [] (history !! k0) ++ [v0]]> history) Hnd Hk)
        as [v Hv].
      exists v. rewrite Hv, lookup_insert_ne; [done|]. by intros ->.
Qed.

Lemma log_keys_NoDup {A} (validation_data : option A) :
  NoDup (keras.log_keys validation_data).
Proof. destruct validation_data; compute_done. Qed.
End history_facts.

(** The batches of a fit cover the data, in order: the fuel, one unit for
    each example, is enough whenever a batch holds an example. *)
Lemma concat_make_batches {A} (fuel batch_size : nat) (data : list A) :
  0 < batch_size → length data ≤ fuel →
  concat (keras.make_batches fuel batch_size data) = data.
Proof.
  intros Hpos. revert data.
  induction fuel as [|fuel IH]; intros [|a data] Hlen; cbn in Hlen; try done.
  - lia.
  - cbn [keras.make_batches concat]. rewrite IH, take_drop; [done|].
    rewrite length_drop. cbn. lia.
Qed.

Section fit_facts.
Context {weights : Type}.
Variable train_on_batch : weights → list (list float * float) → weights.
Variable evaluate : weights → list (list float) → list float → float * float.
Implicit Types (x : list (list float)) (y : list float) (w : weights).
Implicit Types (validation_data : option (list (list float) * list float)).
Implicit Types (history : gmap string (list float)) (k : string).

Lemma epoch_logs_keys w x y validation_data :
  (keras.epoch_logs evaluate w x y validation_data).*1
  = keras.log_keys validation_data.
Proof. by destruct validation_data as [[x_val y_val]|]. Qed.

(** Every epoch appends one value under each logged name and touches no
    other name. *)
Lemma fit_loop_history (epochs : nat) batches x y validation_data :
  ∀ w history k,
    let h := (keras.fit_loop train_on_batch evaluate epochs batches x y
                validation_data w history).2 in
    (k ∉ keras.log_keys validation_data → h !! k = history !! k)
    ∧ (k ∈ keras.log_keys validation_data →
       0 < epochs →
       ∃ values, h !! k = Some values
         ∧ length values = length (default [] (history !! k)) + epochs).
Proof.
  induction epochs as [|n IH]; intros w history k h; subst h.
  - split; [done|]. intros _ Hpos. lia.
  - cbn [keras.fit_loop]. cbn zeta.
    set (w' := foldl train_on_batch w batches).
    set (logs := keras.epoch_logs evaluate w' x y validation_data).
    assert (logs.*1 = keras.log_keys validation_data) as Hkeys
      by apply epoch_logs_keys.
    destruct (IH w' (keras.on_epoch_end history logs) k) as [IHne IHin].
    split.
    + intros Hk. rewrite IHne by done.
      apply lookup_on_epoch_end_ne. by rewrite Hkeys.
    + intros Hk _.
      destruct (lookup_on_epoch_end history logs k) as [v Hv].
      { rewrite Hkeys. apply log_keys_NoDup. }
      { by rewrite Hkeys. }
      destruct n as [|n].
      * exists (default [] (history !! k) ++ [v]).
        split; [done|]. by rewrite length_app.
      * destruct (IHin Hk) as (values & Hvalues & Hlen); [lia|].
        exists values. split; [done|].
        rewrite Hlen, Hv. cbn. rewrite length_app. cbn. lia.
Qed.

(** A fit whose example counts differ raises [ValueError] and trains
    nothing. *)
Lemma fit_length_mismatch (model : keras.Sequential) x y
    (epochs batch_size : nat) validation_data :
  length x ≠ length y →
  keras.fit train_on_batch evaluate model x y epochs batch_size validation_data
  = Raise ValueError.
Proof.
  intros Hne. unfold keras.fit, keras.check_array_length_consistency.
  by destruct (decide (length x = length y)).
Qed.

Lemma fit_validation_length_mismatch (model : keras.Sequential) x y
    (epochs batch_size : nat) (x_val : list (list float)) (y_val : list float) :
  length x_val ≠ length y_val →
  keras.fit train_on_batch evaluate model x y epochs batch_size
    (Some (x_val, y_val))
  = Raise ValueError.
Proof.
  intros Hne. unfold keras.fit, keras.check_array_length_consistency.
  destruct (decide (length x = length y)); [|done]. cbn.
  by destruct (decide (length x_val = length y_val)).
Qed.

(** A fit on consistent arrays returns, and its history has [epochs]
    values under each logged name and no other name. *)
Lemma fit_history (model : keras.Sequential) x y (epochs batch_size : nat)
    validation_data :
  length x = length y →
  match validation_data with
  | Some (x_val, y_val) => length x_val = length y_val
  | None => True
  end →
  0 < epochs →
  ∃ model' history,
    keras.fit train_on_batch evaluate model x y epochs batch_size validation_data
    = Ok (model', history)
    ∧ keras.layers model' = keras.layers model
    ∧ dom history = list_to_set (keras.log_keys validation_data)
    ∧ ∀ k, k ∈ keras.log_keys validation_data →
        ∃ values, history !! k = Some values ∧ length values = epochs.
Proof.
  intros Hxy Hval Hepochs.
  remember (keras.log_keys validation_data) as keys eqn:Hkeys.
  unfold keras.fit, keras.check_array_length_consistency.
  destruct (decide (length x = length y)); [|done]. cbn.
  assert (match validation_data with
          | Some (x_val, y_val) =>
              if decide (length x_val = length y_val)
              then Ok () else Raise ValueError
          | None => Ok ()
          end = Ok ()) as ->.
  { destruct validation_data as [[x_val y_val]|]; [|done].
    by destruct (decide (length x_val = length y_val)). }
  cbn.
  set (batches := keras.make_batches _ _ _).
  eexists _, _. split; [done|]. split; [done|].
  pose proof (fit_loop_history epochs batches x y validation_data
                (keras.state model) ∅) as Hloop. cbn zeta in Hloop.
  rewrite <-Hkeys in Hloop. clear Hkeys. split.
  - apply set_eq. intros k. rewrite elem_of_dom, elem_of_list_to_set.
    destruct (Hloop k) as [Hne Hin]. split.
    + intros Hsome.
      destruct (decide (k ∈ keys)) as [|Hk]; [done|].
      rewrite (Hne Hk), lookup_empty in Hsome. by destruct Hsome.
    + intros Hk. destruct (Hin Hk Hepochs) as (values & -> & _). by eexists.
  - intros k Hk. destruct (proj2 (Hloop k) Hk Hepochs) as (values & Hv & Hlen).
    exists values. split; [done|]. by rewrite Hlen, lookup_empty.
Qed.
End fit_facts.

(** C5: the end-to-end scenario.  A training split of 25000 reviews over
    the 10000-word vocabulary is vectorized to multi-hot rows, and a
    16-16-1 stack is fitted on them for 4 epochs at batch size 512 with a
    validation set supplied.  The fit returns, and its history holds
    exactly the four names [loss], [acc], [val_loss] and [val_acc], each
    with exactly 4 values, one for each epoch. *)
Theorem fit_history_four_epochs {weights : Type}
    (train_on_batch : weights → list (list float * float) → weights)
    (evaluate : weights → list (list float) → list float → float * float)
    (model : @keras.Sequential weights)
    (train_data : list (list N)) (y_train : list float)
    (x_val : list (list float)) (y_val : list float) :
  keras.layers model = keras.stack_16_16_1 →
  Forall (Forall (λ t, t < 10000)%N) train_data →
  length train_data = train_samples →
  length y_train = train_samples →
  length x_val = length y_val →
  ∃ (x_train : np.ndarray) (model' : keras.Sequential)
    (history : gmap string (list float)),
    vectorize_sequences (integers train_data) dimension_default = Ok x_train
    ∧ keras.fit train_on_batch evaluate model (np.rows x_train) y_train 4 512
        (Some (x_val, y_val)) = Ok (model', history)
    ∧ dom history = list_to_set ["loss"; "acc"; "val_loss"; "val_acc"]
    ∧ ∀ k, k ∈ ["loss"; "acc"; "val_loss"; "val_acc"] →
        ∃ values, history !! k = Some values ∧ length values = 4.
Proof.
  intros _ Hvocab Hn Hy Hval.
  destruct (vectorize_sequences_returns (integers train_data) dimension_default)
    as [x_train Hx].
  { eapply Forall_Forall_impl; [|by apply integers_in_range]. cbn. lia. }
  destruct (vectorize_sequences_wf _ _ _ Hx) as [Hrows _].
  destruct (vectorize_sequences_Ok _ _ _ Hx) as [Hsh _].
  destruct (fit_history train_on_batch evaluate model (np.rows x_train) y_train
              4 512 (Some (x_val, y_val)))
    as (model' & history & Hfit & _ & Hdom & Hvalues); [|done|lia|].
  { rewrite Hrows, Hsh. cbn. rewrite length_integers. congruence. }
  by exists x_train, model', history.
Qed.

Lemma fit_history_four_epochs_witness :
  ∃ (x_train : np.ndarray) (model' : keras.Sequential)
    (history : gmap string (list float)),
    vectorize_sequences (integers (replicate train_samples [])) dimension_default
    = Ok x_train
    ∧ keras.fit (λ (w : ()) _, w) (λ _ _ _, (0%float, 1%float))
        (keras.mk_Sequential keras.stack_16_16_1 ()) (np.rows x_train)
        (replicate train_samples 0%float) 4 512
        (Some ([[0%float]], [1%float])) = Ok (model', history)
    ∧ dom history = list_to_set ["loss"; "acc"; "val_loss"; "val_acc"]
    ∧ ∀ k, k ∈ ["loss"; "acc"; "val_loss"; "val_acc"] →
        ∃ values, history !! k = Some values ∧ length values = 4.
Proof.
  apply (fit_history_four_epochs (λ (w : ()) _, w) (λ _ _ _, (0%float, 1%float))
           (keras.mk_Sequential keras.stack_16_16_1 ())
           (replicate train_samples []) (replicate train_samples 0%float)
           [[0%float]] [1%float]).
  - reflexivity.
  - apply Forall_replicate. constructor.
  - apply length_replicate.
  - apply length_replicate.
  - reflexivity.
Defined.

(** ** The instructor's cells *)

Lemma train_test_split_Ok {A} (arrays parts : list (list A))
    (train test : list nat) :
  sklearn.train_test_split arrays train test = Ok parts →
  sklearn.split_arrays arrays train test = Ok parts.
Proof.
  unfold sklearn.train_test_split.
  destruct (decide (length arrays = 0)); [done|].
  by destruct (sklearn.check_consistent_length arrays).
Qed.

Lemma length_split_arrays {A} (arrays parts : list (list A))
    (train test : list nat) :
  sklearn.split_arrays arrays train test = Ok parts →
  length parts = 2 * length arrays.
Proof.
  unfold sklearn.split_arrays.
  destruct (mapM _ arrays) as [pairs|] eqn:Hpairs; cbn; [|done].
  intros [= <-]. apply mapM_Ok_Forall2 in Hpairs.
  induction Hpairs as [|a pair arrays pairs Ha _ IH]; [done|].
  cbn [concat length]. rewrite length_app, IH.
  destruct (sklearn.safe_indexing a train); cbn in Ha; [|done].
  destruct (sklearn.safe_indexing a test); cbn in Ha; [|done].
  injection Ha as <-. cbn. lia.
Qed.

Lemma length_train_test_split {A} (arrays parts : list (list A))
    (train test : list nat) :
  sklearn.train_test_split arrays train test = Ok parts →
  length parts = 2 * length arrays.
Proof. intros Hparts%train_test_split_Ok. by eapply length_split_arrays. Qed.

(** Splitting one array gives two parts, never the four the cell
    assigns. *)
Lemma instructor_split_raises {A} (XTRAIN : list A) (train test : list nat) :
  ¬ returns (instructor_split XTRAIN train test).
Proof.
  intros [names Hnames]. unfold instructor_split in Hnames.
  destruct (sklearn.train_test_split [XTRAIN] train test) as [parts|] eqn:Hparts;
    cbn in Hnames; [|done].
  apply length_train_test_split in Hparts. cbn in Hparts.
  by destruct parts as [|a [|b [|c [|d [|e parts]]]]].
Qed.

(** C3, the instructor's cells as they stand: the split of the features
    alone never yields the four arrays it is assigned to, so no
    validation pair is built; and the recorded fit, given 25000 inputs
    and a target of 10000 samples, raises [ValueError] and trains
    nothing. *)
Theorem instructor_cells_raise {weights : Type}
    (train_on_batch : weights → list (list float * float) → weights)
    (evaluate : weights → list (list float) → list float → float * float)
    (model : @keras.Sequential weights)
    (x_train : list (list float)) (val_data : list float)
    (train test : list nat) :
  length x_train = train_samples →
  length val_data = val_data_samples →
  ¬ returns (instructor_split x_train train test)
  ∧ keras.fit train_on_batch evaluate model x_train val_data 20 512 None
    = Raise ValueError.
Proof.
  intros Hx Hval. split; [apply instructor_split_raises|].
  apply fit_length_mismatch. rewrite Hx, Hval.
  unfold train_samples, val_data_samples. lia.
Qed.

Lemma instructor_cells_raise_witness :
  ¬ returns (instructor_split (replicate train_samples [0%float]) [0; 1] [2])
  ∧ keras.fit (λ (w : ()) _, w) (λ _ _ _, (0%float, 1%float))
      (keras.mk_Sequential keras.stack_16_16_1 ())
      (replicate train_samples [0%float])
      (replicate val_data_samples 0%float) 20 512 None
    = Raise ValueError.
Proof.
  apply (instructor_cells_raise (λ (w : ()) _, w) (λ _ _ _, (0%float, 1%float))
           (keras.mk_Sequential keras.stack_16_16_1 ())
           (replicate train_samples [0%float])
           (replicate val_data_samples 0%float) [0; 1] [2]).
  - apply length_replicate.
  - apply length_replicate.
Defined.

(** * Further properties *)

(** ** [vectorize_sequences] on all the inputs it accepts *)

Section accepted_facts.
Implicit Types (sequences : list (list Z)) (sequence : list Z) (d : nat).

Lemma vectorize_row_returns_iff d sequence :
  returns (vectorize_row d sequence)
  ↔ Forall (λ t, - Z.of_nat d ≤ t < Z.of_nat d)%Z sequence.
Proof.
  split.
  - intros [row Hrow].
    destruct (decide (Forall (λ t, - Z.of_nat d ≤ t < Z.of_nat d)%Z sequence))
      as [|Hex]; [done|].
    rewrite vectorize_row_Raise in Hrow; [done|].
    apply not_Forall_Exists in Hex; [|apply _].
    eapply Exists_impl; [done|]. cbn. lia.
  - intros Hall. rewrite vectorize_row_Ok by done. by eexists.
Qed.

Lemma vectorize_sequences_singleton d sequence :
  vectorize_sequences [sequence] d
  = row ← vectorize_row d sequence; Ok (np.mk_ndarray (1, d) [row]).
Proof.
  rewrite vectorize_sequences_rows, mapM_cons.
  by destruct (vectorize_row d sequence).
Qed.

(** The columns set in a row are the residues of the integers of the
    review. *)
Lemma vectorize_row_one_mod d sequence (row : list float) (j : nat) :
  vectorize_row d sequence = Ok row → j < d →
  row !! j = Some 1%float
  ↔ ∃ t, t ∈ sequence ∧ (t `mod` Z.of_nat d)%Z = Z.of_nat j.
Proof.
  intros Hrow Hj.
  assert (Forall (λ t, - Z.of_nat d ≤ t < Z.of_nat d)%Z sequence) as Hall
    by (apply vectorize_row_returns_iff; by eexists).
  rewrite vectorize_row_Ok in Hrow by done. injection Hrow as <-.
  rewrite lookup_put, lookup_replicate_2 by done. cbn. case_decide as Hin.
  - split; [intros _|done]. apply list_elem_of_fmap in Hin as (t & -> & Ht).
    exists t. split; [done|]. rewrite Z2Nat.id; [done|].
    apply Z.mod_pos_bound. lia.
  - split; [intros [= H]; by destruct zero_ne_one|].
    intros (t & Ht & Hmod). destruct Hin. apply list_elem_of_fmap.
    exists t. split; [|done]. rewrite Hmod. by rewrite Nat2Z.id.
Qed.
End accepted_facts.

(** X1: for reviews whose integers fit a 64-bit index, the call returns
    an array exactly when every integer of every review lies in
    [-dimension, dimension), and on every other such input it raises
    [IndexError]: no other exception, and no array. *)
Theorem vectorize_sequences_domain (sequences : list (list Z)) (dimension : nat) :
  Forall (Forall np.fits_intp) sequences →
  (returns (vectorize_sequences sequences dimension)
   ↔ Forall (Forall (λ t, - Z.of_nat dimension ≤ t < Z.of_nat dimension)%Z)
       sequences)
  ∧ (returns (vectorize_sequences sequences dimension)
     ∨ vectorize_sequences sequences dimension = Raise IndexError).
Proof.
  intros _. split; [apply vectorize_sequences_returns_iff|].
  destruct (decide (Forall (Forall (λ t,
    - Z.of_nat dimension ≤ t < Z.of_nat dimension)%Z) sequences)) as [Hall|Hex].
  - left. by apply vectorize_sequences_returns.
  - right. apply vectorize_sequences_Raise.
    apply not_Forall_Exists in Hex; [|apply _].
    eapply Exists_impl; [done|]. intros s Hs. cbn in Hs.
    apply not_Forall_Exists in Hs; [|apply _].
    eapply Exists_impl; [done|]. cbn. lia.
Qed.

Lemma vectorize_sequences_domain_witness :
  (returns (vectorize_sequences [[-1; 0]; [3]]%Z 3)
   ↔ Forall (Forall (λ t, - Z.of_nat 3 ≤ t < Z.of_nat 3)%Z) [[-1; 0]; [3]]%Z)
  ∧ (returns (vectorize_sequences [[-1; 0]; [3]]%Z 3)
     ∨ vectorize_sequences [[-1; 0]; [3]]%Z 3 = Raise IndexError).
Proof.
  apply (vectorize_sequences_domain [[-1; 0]; [3]]%Z 3).
  repeat constructor; unfold np.fits_intp; lia.
Defined.

(** X2: for reviews whose integers fit a 64-bit index, whenever the call
    returns, negative integers included, the array has one row for each
    review and [dimension] columns, holds only [0.0] and [1.0], and entry
    [(i, j)] is [1.0] exactly when some integer [t] of review [i] has
    [t mod dimension = j]: an integer [t < 0] sets column
    [t + dimension]. *)
Theorem vectorize_sequences_entries
    (sequences : list (list Z)) (dimension : nat) (results : np.ndarray) :
  Forall (Forall np.fits_intp) sequences →
  vectorize_sequences sequences dimension = Ok results →
  np.shape results = (length sequences, dimension)
  ∧ np.wf results
  ∧ (∀ i j x, np.getitem results i j = Some x → x = 0%float ∨ x = 1%float)
  ∧ (∀ i j review, sequences !! i = Some review → j < dimension →
       np.getitem results i j = Some 1%float
       ↔ ∃ t, t ∈ review ∧ (t `mod` Z.of_nat dimension)%Z = Z.of_nat j).
Proof.
  intros _ Hres. destruct (vectorize_sequences_Ok _ _ _ Hres) as [Hsh Hrows].
  split; [done|]. split; [by eapply vectorize_sequences_wf|]. split.
  - intros i j x. unfold np.getitem.
    destruct (np.rows results !! i) as [row|] eqn:Hi; cbn; [|done].
    destruct (Forall2_lookup_r _ _ _ _ _ Hrows Hi) as (s & _ & Hs).
    by eapply vectorize_row_zero_one.
  - intros i j review Hi Hj.
    destruct (Forall2_lookup_l _ _ _ _ _ Hrows Hi) as (row & Hrow & Hs).
    unfold np.getitem. rewrite Hrow. cbn. by apply vectorize_row_one_mod.
Qed.

Lemma vectorize_sequences_entries_witness :
  np.shape (np.mk_ndarray (2, 3)
              [[1%float; 0%float; 1%float]; [0%float; 0%float; 1%float]])
  = (2, 3)
  ∧ np.wf (np.mk_ndarray (2, 3)
             [[1%float; 0%float; 1%float]; [0%float; 0%float; 1%float]])
  ∧ (∀ i j x,
       np.getitem (np.mk_ndarray (2, 3)
         [[1%float; 0%float; 1%float]; [0%float; 0%float; 1%float]]) i j
       = Some x → x = 0%float ∨ x = 1%float)
  ∧ (∀ i j review, [[-1; 0]; [2; -1]]%Z !! i = Some review → j < 3 →
       np.getitem (np.mk_ndarray (2, 3)
         [[1%float; 0%float; 1%float]; [0%float; 0%float; 1%float]]) i j
       = Some 1%float
       ↔ ∃ t, t ∈ review ∧ (t `mod` Z.of_nat 3)%Z = Z.of_nat j).
Proof.
  apply (vectorize_sequences_entries [[-1; 0]; [2; -1]]%Z 3).
  - repeat constructor; unfold np.fits_intp; lia.
  - reflexivity.
Defined.

(** X3: only the empty review gives the all-zero row.  In a returned
    array, row [i] is all zeros exactly when review [i] is empty. *)
Theorem vectorize_sequences_zero_row
    (sequences : list (list Z)) (dimension : nat) (results : np.ndarray)
    (i : nat) (review : list Z) :
  vectorize_sequences sequences dimension = Ok results →
  sequences !! i = Some review →
  np.rows results !! i = Some (replicate dimension 0%float) ↔ review = [].
Proof.
  intros Hres Hi. destruct (vectorize_sequences_Ok _ _ _ Hres) as [_ Hrows].
  destruct (Forall2_lookup_l _ _ _ _ _ Hrows Hi) as (row & Hrow & Hs).
  rewrite Hrow. split.
  - intros [= ->]. destruct review as [|t review]; [done|]. exfalso.
    assert (- Z.of_nat dimension ≤ t < Z.of_nat dimension)%Z as Ht.
    { assert (returns (vectorize_row dimension (t :: review))) as Hret
        by by eexists.
      apply vectorize_row_returns_iff, Forall_cons in Hret. tauto. }
    pose proof (Z.mod_pos_bound t (Z.of_nat dimension)) as Hmod.
    destruct (vectorize_row_one_mod dimension (t :: review) _
                (Z.to_nat (t `mod` Z.of_nat dimension)) Hs) as [_ Hone]; [lia|].
    rewrite lookup_replicate_2 in Hone by lia.
    destruct zero_ne_one. apply (inj Some). apply Hone.
    exists t. split; [apply elem_of_cons; by left|]. rewrite Z2Nat.id; lia.
  - intros ->. cbn in Hs. by injection Hs as <-.
Qed.

Lemma vectorize_sequences_zero_row_witness :
  np.rows (np.mk_ndarray (2, 3)
             [[0%float; 1%float; 0%float]; [0%float; 0%float; 0%float]]) !! 1
  = Some (replicate 3 0%float) ↔ @nil Z = [].
Proof.
  apply (vectorize_sequences_zero_row [[1]; []]%Z 3
           (np.mk_ndarray (2, 3)
              [[0%float; 1%float; 0%float]; [0%float; 0%float; 0%float]])
           1 []); reflexivity.
Defined.

(** ** Counting the ones of a row *)

Section count_facts.
Implicit Types (js : list nat) (d : nat) (sequence : list Z).

Lemma put_zeros_seq d js :
  np.put 1%float (replicate d 0%float) js
  = (λ j, if decide (j ∈ js) then 1%float else 0%float) <$> seq 0 d.
Proof.
  apply list_eq. intros j. rewrite lookup_put, list_lookup_fmap.
  destruct (decide (j < d)) as [Hj|Hj].
  - by rewrite lookup_replicate_2, lookup_seq_lt by done.
  - rewrite lookup_seq_ge by lia.
    by rewrite lookup_ge_None_2 by (rewrite length_replicate; lia).
Qed.

Lemma count_ones_indicator js (l : list nat) :
  count_ones ((λ j, if decide (j ∈ js) then 1%float else 0%float) <$> l)
  = length (filter (λ j, j ∈ js) l).
Proof.
  unfold count_ones. induction l as [|j l IH]; [done|].
  rewrite fmap_cons, !filter_cons. destruct (decide (j ∈ js)).
  - rewrite decide_True by reflexivity. cbn. by rewrite IH.
  - rewrite decide_False by (vm_compute; discriminate). done.
Qed.

(** The ones of a written row are as many as the distinct positions
    written. *)
Lemma count_ones_put d js :
  Forall (λ j, j < d) js →
  count_ones (np.put 1%float (replicate d 0%float) js) = length (remove_dups js).
Proof.
  intros Hlt. rewrite put_zeros_seq, count_ones_indicator.
  apply Permutation_length, NoDup_Permutation.
  - apply NoDup_filter, NoDup_seq.
  - apply NoDup_remove_dups.
  - intros j. rewrite list_elem_of_filter, elem_of_seq, elem_of_remove_dups.
    rewrite Forall_forall in Hlt. split; [tauto|].
    intros Hj. specialize (Hlt j Hj). split; [done|lia].
Qed.

Lemma length_remove_dups_fmap {A B} `{EqDecision A, EqDecision B}
    (f : A → B) (l : list A) :
  (∀ x y, x ∈ l → y ∈ l → f x = f y → x = y) →
  length (remove_dups (f <$> l)) = length (remove_dups l).
Proof.
  intros Hinj. rewrite <-(length_fmap f (remove_dups l)).
  apply Permutation_length, NoDup_Permutation.
  - apply NoDup_remove_dups.
  - apply NoDup_fmap_2_strong; [|apply NoDup_remove_dups].
    intros x y Hx Hy. apply Hinj; by apply elem_of_remove_dups.
  - intros y. rewrite elem_of_remove_dups, !list_elem_of_fmap.
    by setoid_rewrite elem_of_remove_dups.
Qed.
End count_facts.

(** X4: repetition is discarded, and nothing else.  For a review with
    every token index in [0, dimension), the number of [1.0] entries of
    its row is the number of distinct integers in the review. *)
Theorem vectorize_sequences_count_ones
    (sequences : list (list Z)) (dimension : nat) (results : np.ndarray)
    (i : nat) (review : list Z) :
  vectorize_sequences sequences dimension = Ok results →
  sequences !! i = Some review →
  Forall (λ t, 0 ≤ t < Z.of_nat dimension)%Z review →
  ∃ row, np.rows results !! i = Some row
    ∧ count_ones row = length (remove_dups review).
Proof.
  intros Hres Hi Hrange. destruct (vectorize_sequences_Ok _ _ _ Hres) as [_ Hrows].
  destruct (Forall2_lookup_l _ _ _ _ _ Hrows Hi) as (row & Hrow & Hs).
  exists row. split; [done|].
  rewrite vectorize_row_in_range in Hs by done. injection Hs as <-.
  rewrite count_ones_put.
  - apply length_remove_dups_fmap. intros x y Hx Hy Hxy.
    rewrite Forall_forall in Hrange.
    pose proof (Hrange x Hx). pose proof (Hrange y Hy). lia.
  - apply Forall_fmap. eapply Forall_impl; [exact Hrange|]. cbn. lia.
Qed.

Lemma vectorize_sequences_count_ones_witness :
  ∃ row, np.rows (np.mk_ndarray (1, 4)
                    [[0%float; 1%float; 0%float; 1%float]]) !! 0 = Some row
    ∧ count_ones row = length (remove_dups [3; 1; 3; 1; 1]%Z).
Proof.
  apply (vectorize_sequences_count_ones [[3; 1; 3; 1; 1]]%Z 4
           (np.mk_ndarray (1, 4) [[0%float; 1%float; 0%float; 1%float]])
           0 [3; 1; 3; 1; 1]%Z).
  - reflexivity.
  - reflexivity.
  - repeat constructor; lia.
Defined.

(** ** Reviews put together, reviews told apart, and the dimension *)

(** X5: the row of two reviews put end to end is the union of their
    rows.  For reviews whose integers fit a 64-bit index, the call on
    [s1 ++ s2] returns exactly when it returns on [s1] and on [s2], and
    then a column holds [1.0] exactly when it does for [s1] or for
    [s2]. *)
Theorem vectorize_sequences_review_app
    (s1 s2 : list Z) (dimension : nat) :
  Forall np.fits_intp s1 → Forall np.fits_intp s2 →
  (returns (vectorize_sequences [s1 ++ s2] dimension)
   ↔ returns (vectorize_sequences [s1] dimension)
     ∧ returns (vectorize_sequences [s2] dimension))
  ∧ (∀ (a b c : np.ndarray) (j : nat),
       vectorize_sequences [s1] dimension = Ok a →
       vectorize_sequences [s2] dimension = Ok b →
       vectorize_sequences [s1 ++ s2] dimension = Ok c →
       np.getitem c 0 j = Some 1%float
       ↔ np.getitem a 0 j = Some 1%float ∨ np.getitem b 0 j = Some 1%float).
Proof.
  intros _ _. split.
  - rewrite !vectorize_sequences_returns_iff, !Forall_singleton.
    apply Forall_app.
  - intros a b c j. rewrite !vectorize_sequences_singleton.
    destruct (vectorize_row dimension s1) as [r1|] eqn:H1; cbn; [|done].
    destruct (vectorize_row dimension s2) as [r2|] eqn:H2; cbn; [|done].
    destruct (vectorize_row dimension (s1 ++ s2)) as [r|] eqn:H; cbn; [|done].
    intros [= <-] [= <-] [= <-]. unfold np.getitem. cbn.
    destruct (decide (j < dimension)) as [Hj|Hj].
    + rewrite !vectorize_row_one_mod by done.
      setoid_rewrite elem_of_app. split.
      * intros (t & [Ht|Ht] & Hmod); [left|right]; by exists t.
      * intros [(t & Ht & Hmod)|(t & Ht & Hmod)]; exists t; auto.
    + apply length_vectorize_row in H1, H2, H.
      rewrite !lookup_ge_None_2 by lia. split; [done|by intros [?|?]].
Qed.

Lemma vectorize_sequences_review_app_witness :
  np.getitem (np.mk_ndarray (1, 3) [[1%float; 1%float; 0%float]]) 0 1
  = Some 1%float
  ↔ np.getitem (np.mk_ndarray (1, 3) [[1%float; 0%float; 0%float]]) 0 1
    = Some 1%float
    ∨ np.getitem (np.mk_ndarray (1, 3) [[0%float; 1%float; 0%float]]) 0 1
      = Some 1%float.
Proof.
  assert (Forall np.fits_intp [0]%Z) as H1
    by (repeat constructor; unfold np.fits_intp; lia).
  assert (Forall np.fits_intp [1; -2]%Z) as H2
    by (repeat constructor; unfold np.fits_intp; lia).
  apply (proj2 (vectorize_sequences_review_app [0]%Z [1; -2]%Z 3 H1 H2)
           (np.mk_ndarray (1, 3) [[1%float; 0%float; 0%float]])
           (np.mk_ndarray (1, 3) [[0%float; 1%float; 0%float]])
           (np.mk_ndarray (1, 3) [[1%float; 1%float; 0%float]]) 1);
    reflexivity.
Defined.

(** X6: the encoding loses nothing but order and repetition.  Two
    reviews with every token index in [0, dimension) get the same result
    exactly when they hold the same set of integers. *)
Theorem vectorize_sequences_same_row_iff
    (review review' : list Z) (dimension : nat) :
  Forall (λ t, 0 ≤ t < Z.of_nat dimension)%Z review →
  Forall (λ t, 0 ≤ t < Z.of_nat dimension)%Z review' →
  vectorize_sequences [review] dimension = vectorize_sequences [review'] dimension
  ↔ ∀ t, t ∈ review ↔ t ∈ review'.
Proof.
  intros Hr Hr'. split.
  - rewrite !vectorize_sequences_singleton.
    rewrite (vectorize_row_in_range dimension review Hr).
    rewrite (vectorize_row_in_range dimension review' Hr'). cbn.
    pose proof (vectorize_row_in_range dimension review Hr) as Hrow.
    pose proof (vectorize_row_in_range dimension review' Hr') as Hrow'.
    intros [= Heq]. rewrite <-Heq in Hrow'.
    set (row := np.put 1%float (replicate dimension 0%float)
                  (Z.to_nat <$> review)) in *. clearbody row.
    intros t. split; intros Ht.
    + assert (0 ≤ t < Z.of_nat dimension)%Z as Hb
        by (rewrite Forall_forall in Hr; by apply Hr).
      pose proof (vectorize_row_one dimension review row (Z.to_nat t) Hr Hrow)
        as H1.
      pose proof (vectorize_row_one dimension review' row (Z.to_nat t) Hr' Hrow')
        as H2.
      rewrite Z2Nat.id in H1, H2 by lia. apply H2; [lia|]. apply H1; [lia|done].
    + assert (0 ≤ t < Z.of_nat dimension)%Z as Hb
        by (rewrite Forall_forall in Hr'; by apply Hr').
      pose proof (vectorize_row_one dimension review row (Z.to_nat t) Hr Hrow)
        as H1.
      pose proof (vectorize_row_one dimension review' row (Z.to_nat t) Hr' Hrow')
        as H2.
      rewrite Z2Nat.id in H1, H2 by lia. apply H1; [lia|]. apply H2; [lia|done].
  - intros Hset. apply vectorize_sequences_ext. by constructor.
Qed.

Lemma vectorize_sequences_same_row_iff_witness :
  vectorize_sequences [[2; 0; 2]%Z] 3 = vectorize_sequences [[0; 2]%Z] 3
  ↔ ∀ t, t ∈ [2; 0; 2]%Z ↔ t ∈ [0; 2]%Z.
Proof.
  apply (vectorize_sequences_same_row_iff [2; 0; 2]%Z [0; 2]%Z 3);
    repeat constructor; lia.
Defined.

Lemma put_zeros_app (d d' : nat) (js : list nat) :
  d ≤ d' → Forall (λ j, j < d) js →
  np.put 1%float (replicate d' 0%float) js
  = np.put 1%float (replicate d 0%float) js ++ replicate (d' - d) 0%float.
Proof.
  intros Hd Hjs. rewrite !put_zeros_seq.
  replace d' with (d + (d' - d)) at 1 by lia.
  rewrite seq_app, fmap_app. f_equal.
  apply list_eq. intros k. rewrite list_lookup_fmap.
  destruct (decide (k < d' - d)) as [Hk|Hk].
  - rewrite lookup_seq_lt, lookup_replicate_2 by done. cbn.
    rewrite decide_False; [done|]. intros Hin.
    rewrite Forall_forall in Hjs. specialize (Hjs _ Hin). lia.
  - rewrite lookup_seq_ge by lia.
    by rewrite lookup_ge_None_2 by (rewrite length_replicate; lia).
Qed.

(** X7: a larger [dimension] only appends zero columns.  For reviews
    with every token index in [0, dimension) and [dimension <= dimension'],
    the call with [dimension'] returns the rows of the call with
    [dimension], each followed by [dimension' - dimension] zeros. *)
Theorem vectorize_sequences_dimension_le
    (sequences : list (list Z)) (dimension dimension' : nat) :
  Forall (Forall (λ t, 0 ≤ t < Z.of_nat dimension)%Z) sequences →
  dimension ≤ dimension' →
  ∃ results : np.ndarray,
    vectorize_sequences sequences dimension = Ok results
    ∧ vectorize_sequences sequences dimension'
      = Ok (np.mk_ndarray (length sequences, dimension')
              ((λ row, row ++ replicate (dimension' - dimension) 0%float)
                 <$> np.rows results)).
Proof.
  intros Hrange Hle. rewrite !vectorize_sequences_rows.
  rewrite (mapM_Ok_map _ (λ s,
    np.put 1%float (replicate dimension 0%float) (Z.to_nat <$> s))).
  2:{ eapply Forall_impl; [exact Hrange|]. intros s. apply vectorize_row_in_range. }
  rewrite (mapM_Ok_map _ (λ s,
    np.put 1%float (replicate dimension' 0%float) (Z.to_nat <$> s))).
  2:{ eapply Forall_impl; [exact Hrange|]. intros s Hs.
      apply vectorize_row_in_range.
      eapply Forall_impl; [exact Hs|]. cbn. lia. }
  eexists. split; [done|]. cbn. do 2 f_equal.
  rewrite <-list_fmap_compose. apply Forall_fmap_ext.
  eapply Forall_impl; [exact Hrange|]. intros s Hs. cbn.
  apply put_zeros_app; [done|]. apply Forall_fmap.
  eapply Forall_impl; [exact Hs|]. cbn. lia.
Qed.

Lemma vectorize_sequences_dimension_le_witness :
  ∃ results : np.ndarray,
    vectorize_sequences [[1; 0]; []]%Z 2 = Ok results
    ∧ vectorize_sequences [[1; 0]; []]%Z 5
      = Ok (np.mk_ndarray (2, 5)
              ((λ row, row ++ replicate (5 - 2) 0%float) <$> np.rows results)).
Proof.
  apply (vectorize_sequences_dimension_le [[1; 0]; []]%Z 2 5).
  - repeat constructor; lia.
  - lia.
Defined.

(** ** The executed copy and its cell *)

Lemma executed_vectorize_sequences_eq
    (sequences : list (list Z)) (dimension : nat) (stdout : list string) :
  executed.vectorize_sequences sequences dimension stdout
  = (stdout ++ [executed.print_shape (length sequences, dimension)],
     vectorize_sequences sequences dimension).
Proof. reflexivity. Qed.

Lemma print_shape_dataset :
  executed.print_shape (train_samples, dimension_default) = "(25000, 10000)".
Proof. vm_compute. reflexivity. Qed.

(** X8: the two copies of the function agree.  The executed copy returns
    what the other copy returns, and prints exactly one line, before the
    loop and so also when the call raises; when an array is returned the
    line is its shape. *)
Theorem executed_vectorize_sequences_prints_shape
    (sequences : list (list Z)) (dimension : nat) (stdout : list string) :
  (executed.vectorize_sequences sequences dimension stdout).2
  = vectorize_sequences sequences dimension
  ∧ (∃ line,
       (executed.vectorize_sequences sequences dimension stdout).1
       = stdout ++ [line]
       ∧ ∀ results,
           vectorize_sequences sequences dimension = Ok results →
           line = executed.print_shape (np.shape results)).
Proof.
  rewrite executed_vectorize_sequences_eq. split; [done|].
  eexists. split; [done|]. intros results Hres.
  by destruct (vectorize_sequences_Ok _ _ _ Hres) as [-> _].
Qed.

(** X9: the cell on the dataset.  For training and test splits of 25000
    reviews each over the 10000-word vocabulary, the cell prints the two
    lines the notebook records, [(25000, 10000)] twice, and binds
    [x_train] and [x_test] to the arrays of the two calls. *)
Theorem prepare_data_prints (train_data test_data : list (list N))
    (stdout : list string) :
  Forall (Forall (λ t, t < 10000)%N) train_data →
  Forall (Forall (λ t, t < 10000)%N) test_data →
  length train_data = train_samples →
  length test_data = train_samples →
  ∃ x_train x_test : np.ndarray,
    executed.prepare_data (integers train_data) (integers test_data) stdout
    = (stdout ++ ["(25000, 10000)"; "(25000, 10000)"], Ok (x_train, x_test))
    ∧ vectorize_sequences (integers train_data) dimension_default = Ok x_train
    ∧ vectorize_sequences (integers test_data) dimension_default = Ok x_test.
Proof.
  intros Htrain Htest Hn Hm.
  destruct (vectorize_sequences_returns (integers train_data) dimension_default)
    as [x_train Hx_train].
  { eapply Forall_Forall_impl; [|by apply integers_in_range]. cbn. lia. }
  destruct (vectorize_sequences_returns (integers test_data) dimension_default)
    as [x_test Hx_test].
  { eapply Forall_Forall_impl; [|by apply integers_in_range]. cbn. lia. }
  exists x_train, x_test. split; [|done]. unfold executed.prepare_data.
  rewrite !executed_vectorize_sequences_eq. cbn [fst snd].
  rewrite Hx_train. cbn [fst snd].
  rewrite Hx_test, !length_integers, Hn, Hm, print_shape_dataset. cbn.
  by rewrite <-(assoc_L (++)).
Qed.

Lemma prepare_data_prints_witness :
  ∃ x_train x_test : np.ndarray,
    executed.prepare_data (integers (replicate train_samples [9999; 1]%N))
      (integers (replicate train_samples [])) []
    = ([] ++ ["(25000, 10000)"; "(25000, 10000)"], Ok (x_train, x_test))
    ∧ vectorize_sequences (integers (replicate train_samples [9999; 1]%N))
        dimension_default = Ok x_train
    ∧ vectorize_sequences (integers (replicate train_samples []))
        dimension_default = Ok x_test.
Proof.
  apply (prepare_data_prints (replicate train_samples [9999; 1]%N)
           (replicate train_samples []) []).
  - apply Forall_replicate. repeat constructor.
  - apply Forall_replicate. constructor.
  - apply length_replicate.
  - apply length_replicate.
Defined.

(** X10: an exception of the first call ends the cell.  When the
    training data holds an integer below [-10000], or one from [10000]
    on that fits a 64-bit index, the cell prints the one line of the
    first call and raises [IndexError]; the test data is never looked at,
    and nothing is bound. *)
Theorem prepare_data_first_call_raises (train_data test_data : list (list Z))
    (stdout : list string) :
  Exists (Exists (λ t, t < -10000 ∨ 10000 ≤ t < 2 ^ 63)%Z) train_data →
  executed.prepare_data train_data test_data stdout
  = (stdout ++ [executed.print_shape (length train_data, dimension_default)],
     Raise IndexError).
Proof.
  intros Hex. unfold executed.prepare_data.
  rewrite executed_vectorize_sequences_eq. cbn [fst snd].
  rewrite vectorize_sequences_Raise; [done|].
  eapply Exists_Exists_impl; [|exact Hex]. cbn. unfold dimension_default. lia.
Qed.

Lemma prepare_data_first_call_raises_witness :
  executed.prepare_data [[1]; [10000]]%Z [[-20000]]%Z []
  = ([] ++ [executed.print_shape (2, dimension_default)], Raise IndexError).
Proof.
  apply (prepare_data_first_call_raises [[1]; [10000]]%Z [[-20000]]%Z []).
  right. left. left. lia.
Defined.

(** ** [train_test_split] *)

Section split_facts.
Context {A : Type}.
Implicit Types (X Y : list A) (indices train test : list nat).

Lemma mapM_Forall2_Ok {C D} (f : C → result D) (l : list C) (k : list D) :
  Forall2 (λ x y, f x = Ok y) l k → mapM f l = Ok k.
Proof.
  induction 1 as [|x y l k Hx _ IH]; [done|].
  by rewrite mapM_cons, Hx, IH.
Qed.

Lemma safe_indexing_Ok X indices (rows : list A) :
  sklearn.safe_indexing X indices = Ok rows
  ↔ Forall2 (λ i x, X !! i = Some x) indices rows.
Proof.
  unfold sklearn.safe_indexing. split.
  - intros Hrows%mapM_Ok_Forall2. eapply Forall2_impl; [exact Hrows|].
    intros i x. cbn. destruct (X !! i); [|done]. by intros [= ->].
  - intros Hrows. apply mapM_Forall2_Ok. eapply Forall2_impl; [exact Hrows|].
    intros i x. cbn. by intros ->.
Qed.

Lemma safe_indexing_returns X indices :
  returns (sklearn.safe_indexing X indices)
  ↔ Forall (λ i, i < length X) indices.
Proof.
  split.
  - intros [rows Hrows%safe_indexing_Ok].
    induction Hrows as [|i x indices rows Hi _ IH]; constructor; [|done].
    by eapply lookup_lt_Some.
  - intros Hlt. induction Hlt as [|i indices Hi _ [rows Hrows]].
    + by exists [].
    + apply lookup_lt_is_Some_2 in Hi as [x Hx]. exists (x :: rows).
      apply safe_indexing_Ok. constructor; [done|]. by apply safe_indexing_Ok.
Qed.

Lemma train_test_split_consistent (arrays : list (list A)) train test (n : nat) :
  arrays ≠ [] →
  Forall (λ a, length a = n) arrays →
  sklearn.train_test_split arrays train test
  = sklearn.split_arrays arrays train test.
Proof.
  intros Hne Hlen. unfold sklearn.train_test_split.
  destruct arrays as [|a rest]; [done|].
  destruct (decide (length (a :: rest) = 0)) as [Hnil|_]; [done|]. cbn.
  apply Forall_cons in Hlen as [-> Hrest]. by rewrite decide_True.
Qed.

Lemma train_test_split_cons X (arrays : list (list A)) train test :
  sklearn.split_arrays (X :: arrays) train test
  = X_train ← sklearn.safe_indexing X train;
    X_test ← sklearn.safe_indexing X test;
    parts ← sklearn.split_arrays arrays train test;
    Ok (X_train :: X_test :: parts).
Proof.
  unfold sklearn.split_arrays. rewrite mapM_cons.
  destruct (sklearn.safe_indexing X train); cbn; [|done].
  destruct (sklearn.safe_indexing X test); cbn; [|done].
  by destruct (mapM _ arrays).
Qed.

Lemma train_test_split_returns (arrays : list (list A)) train test :
  returns (sklearn.split_arrays arrays train test)
  ↔ Forall (λ a, Forall (λ i, i < length a) (train ++ test)) arrays.
Proof.
  induction arrays as [|X arrays IH].
  - split; [constructor|]. intros _. by eexists.
  - rewrite train_test_split_cons, Forall_cons, Forall_app, <-IH.
    rewrite <-!safe_indexing_returns. unfold returns.
    destruct (sklearn.safe_indexing X train) as [X_train|]; cbn;
      [|split; [by intros [??]|by intros [[[??] ?] ?]]].
    destruct (sklearn.safe_indexing X test) as [X_test|]; cbn;
      [|split; [by intros [??]|by intros [[? [??]] ?]]].
    destruct (sklearn.split_arrays arrays train test) as [parts|]; cbn.
    + split; [intros _|intros _; by eexists].
      split; [split|]; by eexists.
    + split; [by intros [??]|by intros [_ [??]]].
Qed.

Lemma Forall2_Permutation_l {C D} (R : C → D → Prop) (l l' : list C) :
  l ≡ₚ l' → ∀ k, Forall2 R l k → ∃ k', k ≡ₚ k' ∧ Forall2 R l' k'.
Proof.
  induction 1 as [|x l l' _ IH|x y l|l l' l'' _ IH1 _ IH2]; intros k Hk.
  - apply Forall2_nil_inv_l in Hk as ->. by exists [].
  - apply Forall2_cons_inv_l in Hk as (z & k0 & Hz & Hk0 & ->).
    destruct (IH _ Hk0) as (k' & Hperm & Hk').
    exists (z :: k'). split; [by constructor|by constructor].
  - apply Forall2_cons_inv_l in Hk as (z1 & k0 & Hz1 & Hk0 & ->).
    apply Forall2_cons_inv_l in Hk0 as (z2 & k1 & Hz2 & Hk1 & ->).
    exists (z2 :: z1 :: k1). split; [apply perm_swap|by repeat constructor].
  - destruct (IH1 _ Hk) as (k' & Hperm & Hk').
    destruct (IH2 _ Hk') as (k'' & Hperm' & Hk'').
    exists k''. split; [by etrans|done].
Qed.

(** Picking every row number once, in order, gives the array back. *)
Lemma Forall2_seq_lookup (L rows : list A) :
  Forall2 (λ i x, L !! i = Some x) (seq 0 (length L)) rows → rows = L.
Proof.
  intros Hrows. apply list_eq. intros i.
  pose proof (Forall2_length _ _ _ Hrows) as Hlen. rewrite length_seq in Hlen.
  destruct (decide (i < length L)) as [Hi|Hi].
  - destruct (Forall2_lookup_l _ _ _ i i Hrows) as (x & -> & Hx);
      [by apply lookup_seq_lt|done].
  - by rewrite !lookup_ge_None_2 by lia.
Qed.
End split_facts.

(** The last line of the split followed by the assignment to four names
    returns exactly when two arrays are passed and every drawn row number
    exists in both. *)
Lemma train_test_split_unpack4_returns {A} (arrays : list (list A))
    (train test : list nat) :
  returns (sklearn.split_arrays arrays train test ≫= unpack4)
  ↔ length arrays = 2
    ∧ Forall (λ a, Forall (λ i, i < length a) (train ++ test)) arrays.
Proof.
  rewrite <-train_test_split_returns. split.
  - intros [names Hnames].
    destruct (sklearn.split_arrays arrays train test) as [parts|] eqn:Hparts;
      cbn in Hnames; [|done].
    split; [|by eexists]. apply length_split_arrays in Hparts.
    destruct parts as [|a [|b [|c [|d [|e parts]]]]]; cbn in *; try done; lia.
  - intros [Hlen [parts Hparts]]. rewrite Hparts. cbn.
    apply length_split_arrays in Hparts as Hlen'. rewrite Hlen in Hlen'.
    destruct parts as [|a [|b [|c [|d [|e parts]]]]]; cbn in *; try lia.
    by eexists.
Qed.

(** X11: the assignment of the instructor's cell to four names.  For
    arrays of [n] rows each and row numbers drawn below [n],
    [train_test_split] followed by the assignment to four names returns
    exactly when two arrays are passed: with one array, as in the cell,
    or with three, it raises. *)
Theorem train_test_split_unpack4 {A} (arrays : list (list A))
    (train test : list nat) (n : nat) :
  Forall (λ a, length a = n) arrays →
  Forall (λ i, i < n) (train ++ test) →
  returns (sklearn.train_test_split arrays train test ≫= unpack4)
  ↔ length arrays = 2.
Proof.
  intros Hlen Hlt. destruct (decide (arrays = [])) as [->|Hne].
  { split; [by intros [? ?]|done]. }
  rewrite (train_test_split_consistent _ _ _ n Hne Hlen).
  rewrite train_test_split_unpack4_returns.
  split; [by intros [? _]|]. intros Harrays. split; [done|].
  eapply Forall_impl; [exact Hlen|]. by intros a ->.
Qed.

Lemma train_test_split_unpack4_witness :
  returns (sklearn.train_test_split [[10; 20; 30]; [11; 21; 31]] [2; 0] [1]
           ≫= unpack4)
  ↔ length [[10; 20; 30]; [11; 21; 31]] = 2.
Proof.
  apply (train_test_split_unpack4 [[10; 20; 30]; [11; 21; 31]] [2; 0] [1] 3).
  - repeat constructor.
  - repeat constructor; lia.
Defined.

(** X12: a split of features and labels together is co-indexed.  Called
    on two arrays of equal length, [train_test_split] gives four arrays,
    and position [k] of the two training parts, and of the two test
    parts, holds the rows of one and the same row number, so each pair
    has equal example counts. *)
Theorem train_test_split_co_indexed {A} (X Y : list A) (train test : list nat)
    (parts : list (list A)) :
  length Y = length X →
  sklearn.train_test_split [X; Y] train test = Ok parts →
  ∃ X_train X_test Y_train Y_test,
    parts = [X_train; X_test; Y_train; Y_test]
    ∧ length X_train = length train ∧ length Y_train = length train
    ∧ length X_test = length test ∧ length Y_test = length test
    ∧ (∀ k i, train !! k = Some i →
         X_train !! k = X !! i ∧ Y_train !! k = Y !! i ∧ is_Some (X !! i))
    ∧ (∀ k i, test !! k = Some i →
         X_test !! k = X !! i ∧ Y_test !! k = Y !! i ∧ is_Some (X !! i)).
Proof.
  intros Hlen.
  rewrite (train_test_split_consistent [X; Y] _ _ (length X))
    by (done || by repeat constructor).
  rewrite !train_test_split_cons.
  destruct (sklearn.safe_indexing X train) as [X_train|] eqn:HX1; cbn; [|done].
  destruct (sklearn.safe_indexing X test) as [X_test|] eqn:HX2; cbn; [|done].
  destruct (sklearn.safe_indexing Y train) as [Y_train|] eqn:HY1; cbn; [|done].
  destruct (sklearn.safe_indexing Y test) as [Y_test|] eqn:HY2; cbn; [|done].
  intros [= <-]. exists X_train, X_test, Y_train, Y_test.
  apply safe_indexing_Ok in HX1, HX2, HY1, HY2.
  split; [done|].
  repeat (split; [symmetry; by eapply Forall2_length|]).
  split; intros k i Hk.
  - destruct (Forall2_lookup_l _ _ _ _ _ HX1 Hk) as (x & -> & Hx).
    destruct (Forall2_lookup_l _ _ _ _ _ HY1 Hk) as (y & -> & Hy).
    rewrite Hx, Hy. by eauto.
  - destruct (Forall2_lookup_l _ _ _ _ _ HX2 Hk) as (x & -> & Hx).
    destruct (Forall2_lookup_l _ _ _ _ _ HY2 Hk) as (y & -> & Hy).
    rewrite Hx, Hy. by eauto.
Qed.

Lemma train_test_split_co_indexed_witness :
  ∃ X_train X_test Y_train Y_test,
    [[30; 10]; [20]; [31; 11]; [21]] = [X_train; X_test; Y_train; Y_test]
    ∧ length X_train = length [2; 0] ∧ length Y_train = length [2; 0]
    ∧ length X_test = length [1] ∧ length Y_test = length [1]
    ∧ (∀ k i, [2; 0] !! k = Some i →
         X_train !! k = [10; 20; 30] !! i ∧ Y_train !! k = [11; 21; 31] !! i
         ∧ is_Some ([10; 20; 30] !! i))
    ∧ (∀ k i, [1] !! k = Some i →
         X_test !! k = [10; 20; 30] !! i ∧ Y_test !! k = [11; 21; 31] !! i
         ∧ is_Some ([10; 20; 30] !! i)).
Proof.
  apply (train_test_split_co_indexed [10; 20; 30] [11; 21; 31] [2; 0] [1]
           [[30; 10]; [20]; [31; 11]; [21]]); reflexivity.
Defined.

(** X13: a split loses no example, repeats none and mislabels none.
    When the drawn training and test row numbers together are a
    permutation of the row numbers, the (feature, label) pairs of the
    training parts followed by those of the test parts are a permutation
    of the pairs of the input arrays. *)
Theorem train_test_split_conserves {A} (X Y : list A) (train test : list nat)
    (parts : list (list A)) :
  length Y = length X →
  train ++ test ≡ₚ seq 0 (length X) →
  sklearn.train_test_split [X; Y] train test = Ok parts →
  ∃ X_train X_test Y_train Y_test,
    parts = [X_train; X_test; Y_train; Y_test]
    ∧ zip (X_train ++ X_test) (Y_train ++ Y_test) ≡ₚ zip X Y.
Proof.
  intros Hlen Hperm.
  rewrite (train_test_split_consistent [X; Y] _ _ (length X))
    by (done || by repeat constructor).
  rewrite !train_test_split_cons.
  destruct (sklearn.safe_indexing X train) as [X_train|] eqn:HX1; cbn; [|done].
  destruct (sklearn.safe_indexing X test) as [X_test|] eqn:HX2; cbn; [|done].
  destruct (sklearn.safe_indexing Y train) as [Y_train|] eqn:HY1; cbn; [|done].
  destruct (sklearn.safe_indexing Y test) as [Y_test|] eqn:HY2; cbn; [|done].
  intros [= <-]. exists X_train, X_test, Y_train, Y_test. split; [done|].
  apply safe_indexing_Ok in HX1, HX2, HY1, HY2.
  assert (∀ indices xs ys,
    Forall2 (λ i x, X !! i = Some x) indices xs →
    Forall2 (λ i y, Y !! i = Some y) indices ys →
    Forall2 (λ i p, zip X Y !! i = Some p) indices (zip xs ys)) as Hzip.
  { intros indices xs ys Hxs. revert ys.
    induction Hxs as [|i x indices xs Hx _ IH]; intros ys Hys.
    - apply Forall2_nil_inv_l in Hys as ->. constructor.
    - apply Forall2_cons_inv_l in Hys as (y & ys' & Hy & Hys' & ->).
      cbn. constructor; [|by apply IH].
      simpl. rewrite lookup_zip_with, Hx. cbn. by rewrite Hy. }
  pose proof (Forall2_app (Hzip _ _ _ HX1 HY1) (Hzip _ _ _ HX2 HY2)) as Hall.
  destruct (Forall2_Permutation_l _ _ _ Hperm _ Hall) as (pairs & Hpairs & Hseq).
  replace (length X) with (length (zip X Y)) in Hseq
    by (rewrite length_zip_with; lia).
  apply Forall2_seq_lookup in Hseq as ->. rewrite <-Hpairs.
  rewrite zip_with_app; [done|].
  rewrite <-(Forall2_length _ _ _ HX1). by eapply Forall2_length.
Qed.

Lemma train_test_split_conserves_witness :
  ∃ X_train X_test Y_train Y_test,
    [[30; 10]; [20]; [31; 11]; [21]] = [X_train; X_test; Y_train; Y_test]
    ∧ zip (X_train ++ X_test) (Y_train ++ Y_test)
      ≡ₚ zip [10; 20; 30] [11; 21; 31].
Proof.
  apply (train_test_split_conserves [10; 20; 30] [11; 21; 31] [2; 0] [1]
           [[30; 10]; [20]; [31; 11]; [21]]).
  - reflexivity.
  - cbn. apply Permutation_cons_app with (l1 := [0; 1]) (l2 := []).
    rewrite app_nil_r. reflexivity.
  - reflexivity.
Defined.
